(** * node-vikunja: the task service (src/services/task.service.ts)

    A shallow embedding of [TaskService] and of the authentication-retry
    cascade of its assignee and label operations.

    The service is a class whose methods are asynchronous and talk to two
    collaborators: the request primitive inherited from [VikunjaService]
    ([this.request]) and the platform's [fetch].  A method is embedded as a
    program, a finite tree whose nodes are the calls to those collaborators
    and whose leaves are the value the promise resolves with or the value it
    rejects with.  Running a program against an environment (what the
    collaborators answer) gives the outcome and the trace of calls. *)

From Stdlib Require Import ZArith String Ascii List Bool Lia DecimalString.
Import ListNotations.
Local Open Scope string_scope.
Local Open Scope Z_scope.
#[local] Set Warnings "-register-all".

(** ** JavaScript values *)

(** Values that travel as JSON: request bodies, response bodies and the
    raw body kept in an error.  Numbers are the integers (identifiers,
    counts, status codes). *)
Inductive Json : Type :=
| JNull
| JBool (b : bool)
| JNum (n : Z)
| JStr (s : string)
| JArr (items : list Json)
| JObj (fields : list (string * Json)).

(** [String(n)] and [`${n}`] for an integer [n]. *)
Definition number_to_string (n : Z) : string :=
  NilZero.string_of_int (Z.to_int n).

Definition string_is_empty (s : string) : bool :=
  match s with
  | EmptyString => true
  | String _ _ => false
  end.

(** JavaScript truthiness of a JSON value. *)
Definition truthy (v : Json) : bool :=
  match v with
  | JNull => false
  | JBool b => b
  | JNum n => negb (n =? 0)
  | JStr s => negb (string_is_empty s)
  | JArr _ => true
  | JObj _ => true
  end.

Fixpoint join (sep : string) (parts : list string) : string :=
  match parts with
  | [] => ""
  | [p] => p
  | p :: rest => p ++ sep ++ join sep rest
  end.

(** [String(v)]: what a value becomes when it is used as a message. *)
Fixpoint js_to_string (v : Json) : string :=
  match v with
  | JNull => "null"
  | JBool true => "true"
  | JBool false => "false"
  | JNum n => number_to_string n
  | JStr s => s
  | JArr items =>
      join "," (map (fun item => match item with
                                 | JNull => ""
                                 | _ => js_to_string item
                                 end) items)
  | JObj _ => "[object Object]"
  end.

(** Property lookup on a parsed object: [obj.key], [None] for undefined. *)
Fixpoint js_get (fields : list (string * Json)) (key : string) : option Json :=
  match fields with
  | [] => None
  | (k, v) :: rest => if String.eqb k key then Some v else js_get rest key
  end.

Fixpoint indexed_from (i : Z) (items : list Json) : list (string * Json) :=
  match items with
  | [] => []
  | item :: rest => (number_to_string i, item) :: indexed_from (i + 1) rest
  end.

Fixpoint chars_of (s : string) : list Json :=
  match s with
  | EmptyString => []
  | String c rest => JStr (String c EmptyString) :: chars_of rest
  end.

(** Object spread [{...v}]: the own enumerable properties of [v]. *)
Definition spread (v : Json) : list (string * Json) :=
  match v with
  | JObj fields => fields
  | JArr items => indexed_from 0 items
  | JStr s => indexed_from 0 (chars_of s)
  | JNull | JBool _ | JNum _ => []
  end.

(** ** The client's configuration *)

(** The token fixed at construction; [None] when the client was built
    without one ([this.token] is undefined). *)
Definition Token := option string.

(** [if (this.token)]. *)
Definition token_truthy (token : Token) : bool :=
  match token with
  | Some t => negb (string_is_empty t)
  | None => false
  end.

(** [this.token || ''] *)
Definition token_or_empty (token : Token) : string :=
  match token with
  | Some t => if token_truthy token then t else ""
  | None => ""
  end.

(** [`${this.token}`]: an undefined value interpolates as its name. *)
Definition token_interpolated (token : Token) : string :=
  match token with
  | Some t => t
  | None => "undefined"
  end.

(** ** Errors *)

(** The error classes the service imports from core/service.js. *)
Inductive ErrorClass : Type :=
| VikunjaError
| VikunjaAuthenticationError
| AssigneeAuthenticationError
| LabelAuthenticationError.

(** The fields every [VikunjaError] carries. *)
Record ErrorFields : Type := mkError {
  message : string;
  endpoint : string;
  method : string;
  statusCode : Z;
  response : Json
}.

(** What a promise can reject with: an instance of one of the service's
    error classes, or any other JavaScript error (a [TypeError] of a failed
    [fetch], a [SyntaxError] of a failed parse), of which only the message
    is read. *)
Inductive Thrown : Type :=
| JsError (msg : string)
| Vikunja (cls : ErrorClass) (e : ErrorFields).

(** Modelled from the spec: the class hierarchy of core/service.js, which is
    not among the sources.  The authentication error is a subtype of the API
    error, and the assignee and label errors are subtypes of the
    authentication error. *)
Definition subclass_of_authentication (cls : ErrorClass) : bool :=
  match cls with
  | VikunjaError => false
  | VikunjaAuthenticationError => true
  | AssigneeAuthenticationError => true
  | LabelAuthenticationError => true
  end.

(** [error instanceof VikunjaError] *)
Definition instanceof_VikunjaError (error : Thrown) : bool :=
  match error with
  | Vikunja _ _ => true
  | JsError _ => false
  end.

(** [error instanceof VikunjaAuthenticationError] *)
Definition instanceof_VikunjaAuthenticationError (error : Thrown) : bool :=
  match error with
  | Vikunja cls _ => subclass_of_authentication cls
  | JsError _ => false
  end.

(** [(error as Error).message] *)
Definition error_message (error : Thrown) : string :=
  match error with
  | JsError msg => msg
  | Vikunja _ e => message e
  end.

(** [error instanceof VikunjaError &&
     (error.statusCode === 401 || error.statusCode === 403)] *)
Definition is_401_or_403 (error : Thrown) : bool :=
  match error with
  | Vikunja _ e => (statusCode e =? 401) || (statusCode e =? 403)
  | JsError _ => false
  end.

(** ** Calls to the collaborators *)

(** A query parameter value: [string | number | boolean | undefined]. *)
Inductive ParamValue : Type :=
| PStr (s : string)
| PNum (n : Z)
| PBool (b : bool)
| PUndefined.

(** A parameter object, in the order its keys were inserted. *)
Definition Params := list (string * ParamValue).

Definition Headers := list (string * string).

(** The options object of the request primitive:
    [{params?, headers?, responseType?}]. *)
Record RequestOptions : Type := mkOptions {
  params : option Params;
  headers : option Headers;
  responseType : option string
}.

(** One call [this.request(path, method, body?, options?)]. *)
Record RequestCall : Type := mkCall {
  req_path : string;
  req_method : string;
  req_body : option Json;
  req_options : option RequestOptions
}.

(** [{ headers: h }] *)
Definition with_headers (h : Headers) : option RequestOptions :=
  Some (mkOptions None (Some h) None).

(** [{ params: p }] *)
Definition with_params (p : option Params) : option RequestOptions :=
  Some (mkOptions p None None).

(** [{ responseType: r }] *)
Definition with_responseType (r : string) : option RequestOptions :=
  Some (mkOptions None None (Some r)).

(** A multipart form: its named parts. *)
Definition FormData := list (string * string).

(** One call [fetch(url, {method, headers, body})]. *)
Record FetchCall : Type := mkFetch {
  fetch_url : string;
  fetch_method : string;
  fetch_headers : Headers;
  fetch_body : FormData
}.

(** An HTTP response as the service reads it: its status, and what
    [response.json()] settles with (the parsed body, or the message of the
    error the parse failed with). *)
Record Response : Type := mkResponse {
  status : Z;
  json : Json + string
}.

(** [response.ok]: the status is in the range 200-299. *)
Definition ok (r : Response) : bool :=
  (200 <=? status r) && (status r <=? 299).

(** What [fetch] settles with: a response, or a network failure. *)
Inductive FetchOutcome : Type :=
| FetchResolved (r : Response)
| FetchRejected (msg : string).

(** A network call the service issued. *)
Inductive Event : Type :=
| EvRequest (c : RequestCall)
| EvFetch (c : FetchCall).

Definition Trace := list Event.

(** What the collaborators answer to a call, given the calls issued before. *)
Record Env : Type := mkEnv {
  on_request : Trace -> RequestCall -> Json + Thrown;
  on_fetch : Trace -> FetchCall -> FetchOutcome
}.

(** ** Asynchronous programs *)

Inductive Prog (A : Type) : Type :=
| Return (a : A)
| Throw (t : Thrown)
| Request (c : RequestCall) (k : Json + Thrown -> Prog A)
| Fetch (c : FetchCall) (k : FetchOutcome -> Prog A).

Arguments Return {A} a.
Arguments Throw {A} t.
Arguments Request {A} c k.
Arguments Fetch {A} c k.

(** [const x = await p; k x] *)
Fixpoint bind {A B : Type} (p : Prog A) (k : A -> Prog B) : Prog B :=
  match p with
  | Return a => k a
  | Throw t => Throw t
  | Request c k' => Request c (fun o => bind (k' o) k)
  | Fetch c k' => Fetch c (fun o => bind (k' o) k)
  end.

(** [try { p } catch (error) { handler error }] *)
Fixpoint try_catch {A : Type} (p : Prog A) (handler : Thrown -> Prog A) : Prog A :=
  match p with
  | Return a => Return a
  | Throw t => handler t
  | Request c k => Request c (fun o => try_catch (k o) handler)
  | Fetch c k => Fetch c (fun o => try_catch (k o) handler)
  end.

(** [await this.request(path, method, body, options)] *)
Definition request (path method : string) (body : option Json)
    (options : option RequestOptions) : Prog Json :=
  Request (mkCall path method body options)
          (fun o => match o with
                    | inl value => Return value
                    | inr error => Throw error
                    end).

(** [await fetch(url, {method, headers, body})] *)
Definition fetch (url method : string) (hdrs : Headers) (body : FormData)
    : Prog Response :=
  Fetch (mkFetch url method hdrs body)
        (fun o => match o with
                  | FetchResolved r => Return r
                  | FetchRejected msg => Throw (JsError msg)
                  end).

(** [await response.json()] *)
Definition response_json (r : Response) : Prog Json :=
  match json r with
  | inl value => Return value
  | inr msg => Throw (JsError msg)
  end.

(** Running a program: every call is answered by the environment and
    recorded. *)
Fixpoint run {A : Type} (env : Env) (p : Prog A) (tr : Trace)
    : (A + Thrown) * Trace :=
  match p with
  | Return a => (inl a, tr)
  | Throw t => (inr t, tr)
  | Request c k => run env (k (on_request env tr c)) (tr ++ [EvRequest c])%list
  | Fetch c k => run env (k (on_fetch env tr c)) (tr ++ [EvFetch c])%list
  end.

(** ** URL construction *)

Definition hex_digit (n : N) : ascii :=
  match n with
  | 0%N => "0" | 1%N => "1" | 2%N => "2" | 3%N => "3"
  | 4%N => "4" | 5%N => "5" | 6%N => "6" | 7%N => "7"
  | 8%N => "8" | 9%N => "9" | 10%N => "A" | 11%N => "B"
  | 12%N => "C" | 13%N => "D" | 14%N => "E" | _ => "F"
  end%char.

Definition percent_byte (c : ascii) : string :=
  let n := N_of_ascii c in
  String "%" (String (hex_digit (n / 16)) (String (hex_digit (n mod 16)) "")).

(** The bytes a form-encoded query keeps as they are: letters, digits and
    the four marks of the URL standard's set. *)
Definition form_safe (c : ascii) : bool :=
  let n := N_of_ascii c in
  ((48 <=? n) && (n <=? 57) || (65 <=? n) && (n <=? 90)
   || (97 <=? n) && (n <=? 122)
   || (n =? 42) || (n =? 45) || (n =? 46) || (n =? 95))%N.

Fixpoint form_urlencode (s : string) : string :=
  match s with
  | EmptyString => ""
  | String c rest =>
      (if Ascii.eqb c " " then "+"
       else if form_safe c then String c ""
       else percent_byte c) ++ form_urlencode rest
  end.

Definition param_to_string (v : ParamValue) : option string :=
  match v with
  | PStr s => Some s
  | PNum n => Some (number_to_string n)
  | PBool true => Some "true"
  | PBool false => Some "false"
  | PUndefined => None
  end.

Fixpoint query_pairs (p : Params) : list string :=
  match p with
  | [] => []
  | (key, v) :: rest =>
      match param_to_string v with
      | Some s => (form_urlencode key ++ "=" ++ form_urlencode s) :: query_pairs rest
      | None => query_pairs rest
      end
  end.

(** Modelled from the spec: the URL construction of core/service.js, which
    is not among the sources.  The URL is the base URL, the path and the
    serialized query parameters; the parameters are serialized in their
    order as a form-encoded query (a space becomes a plus sign), and a
    parameter that is undefined is left out, as the service's tests expect
    of it. *)
Definition buildUrl (baseUrl path : string) (p : option Params) : string :=
  match query_pairs (match p with Some l => l | None => [] end) with
  | [] => baseUrl ++ path
  | pairs => baseUrl ++ path ++ "?" ++ join "&" pairs
  end.

(** Modelled from the spec: the URL the request primitive of
    core/service.js, which is not among the sources, builds for a call: the
    base URL, the path of the call and the [params] of its options,
    serialized as the query. *)
Definition request_url (baseUrl : string) (c : RequestCall) : string :=
  buildUrl baseUrl (req_path c)
           (match req_options c with
            | Some options => params options
            | None => None
            end).

(** ** The task service *)

Section TaskService.

(** The configuration of the instance, fixed at construction. *)
Variable baseUrl : string.
Variable token : Token.

(** [convertParams] of core/request.js, which is not among the sources. *)
Variable convertParams : option Params -> option Params.

Definition getAllTasks (params : option Params) : Prog Json :=
  request "/tasks" "GET" None (with_params params).

Definition getProjectTasks (projectId : Z) (params : option Params) : Prog Json :=
  request ("/projects/" ++ number_to_string projectId ++ "/tasks") "GET" None
          (with_params params).

Definition createTask (projectId : Z) (task : Json) : Prog Json :=
  request ("/projects/" ++ number_to_string projectId ++ "/tasks") "PUT"
          (Some task) None.

Definition getTask (taskId : Z) : Prog Json :=
  request ("/tasks/" ++ number_to_string taskId) "GET" None None.

Definition updateTask (taskId : Z) (task : Json) : Prog Json :=
  request ("/tasks/" ++ number_to_string taskId) "POST" (Some task) None.

Definition deleteTask (taskId : Z) : Prog Json :=
  request ("/tasks/" ++ number_to_string taskId) "DELETE" None None.

Definition markTaskDone (taskId : Z) : Prog Json :=
  request ("/tasks/" ++ number_to_string taskId ++ "/done") "POST" None None.

Definition markTaskUndone (taskId : Z) : Prog Json :=
  request ("/tasks/" ++ number_to_string taskId ++ "/undone") "POST" None None.

Definition getTaskAssignees (taskId : Z) (params : option Params) : Prog Json :=
  request ("/tasks/" ++ number_to_string taskId ++ "/assignees") "GET" None
          (with_params params).

Definition assignUserToTask (taskId userId : Z) : Prog Json :=
  try_catch
    (request ("/tasks/" ++ number_to_string taskId ++ "/assignees") "PUT"
             (Some (JObj [("user_id", JNum userId)])) None)
    (fun error =>
       if is_401_or_403 error then
         try_catch
           (request ("/tasks/" ++ number_to_string taskId ++ "/assignees") "PUT"
                    (Some (JObj [("user_id", JNum userId)]))
                    (with_headers [("X-API-Token", token_or_empty token)]))
           (fun retryError =>
              if is_401_or_403 retryError then
                try_catch
                  (request ("/tasks/" ++ number_to_string taskId ++ "/assignees") "PUT"
                           (Some (JObj [("user_id", JNum userId)]))
                           (with_headers
                              [("authorization", "Bearer " ++ token_interpolated token)]))
                  (fun finalError =>
                     match finalError with
                     | Vikunja _ e =>
                         if instanceof_VikunjaAuthenticationError finalError then
                           Throw (Vikunja AssigneeAuthenticationError
                                    (mkError
                                       ("Assignee operation failed due to authentication issue. "
                                        ++ "This may occur even with valid tokens. "
                                        ++ "Original error: " ++ message e)
                                       (endpoint e) (method e) (statusCode e) (response e)))
                         else Throw finalError
                     | JsError _ => Throw finalError
                     end)
              else Throw retryError)
       else Throw error).

Definition bulkAssignUsersToTask (taskId : Z) (assignees : Json) : Prog Json :=
  try_catch
    (request ("/tasks/" ++ number_to_string taskId ++ "/assignees/bulk") "POST"
             (Some assignees) None)
    (fun error =>
       if is_401_or_403 error then
         try_catch
           (request ("/tasks/" ++ number_to_string taskId ++ "/assignees/bulk") "POST"
                    (Some assignees)
                    (with_headers [("X-API-Token", token_or_empty token)]))
           (fun retryError =>
              if is_401_or_403 retryError then
                try_catch
                  (request ("/tasks/" ++ number_to_string taskId ++ "/assignees/bulk")
                           "POST" (Some assignees)
                           (with_headers
                              [("authorization", "Bearer " ++ token_interpolated token)]))
                  (fun finalError =>
                     match finalError with
                     | Vikunja _ e =>
                         if instanceof_VikunjaAuthenticationError finalError then
                           Throw (Vikunja AssigneeAuthenticationError
                                    (mkError
                                       ("Assignee operation failed due to authentication issue. "
                                        ++ "This may occur even with valid tokens. "
                                        ++ "Original error: " ++ message e)
                                       (endpoint e) (method e) (statusCode e) (response e)))
                         else Throw finalError
                     | JsError _ => Throw finalError
                     end)
              else Throw retryError)
       else Throw error).

Definition removeUserFromTask (taskId userId : Z) : Prog Json :=
  try_catch
    (request ("/tasks/" ++ number_to_string taskId ++ "/assignees/"
              ++ number_to_string userId) "DELETE" None None)
    (fun error =>
       if is_401_or_403 error then
         try_catch
           (request ("/tasks/" ++ number_to_string taskId ++ "/assignees/"
                     ++ number_to_string userId) "DELETE" None
                    (with_headers [("X-API-Token", token_or_empty token)]))
           (fun retryError =>
              if is_401_or_403 retryError then
                try_catch
                  (request ("/tasks/" ++ number_to_string taskId ++ "/assignees/"
                            ++ number_to_string userId) "DELETE" None
                           (with_headers
                              [("authorization", "Bearer " ++ token_interpolated token)]))
                  (fun finalError =>
                     match finalError with
                     | Vikunja _ e =>
                         if instanceof_VikunjaAuthenticationError finalError then
                           Throw (Vikunja AssigneeAuthenticationError
                                    (mkError
                                       ("Assignee operation failed due to authentication issue. "
                                        ++ "This may occur even with valid tokens. "
                                        ++ "Original error: " ++ message e)
                                       (endpoint e) (method e) (statusCode e) (response e)))
                         else Throw finalError
                     | JsError _ => Throw finalError
                     end)
              else Throw retryError)
       else Throw error).

Definition getTaskComments (taskId : Z) : Prog Json :=
  request ("/tasks/" ++ number_to_string taskId ++ "/comments") "GET" None None.

Definition createTaskComment (taskId : Z) (comment : Json) : Prog Json :=
  request ("/tasks/" ++ number_to_string taskId ++ "/comments") "PUT"
          (Some comment) None.

Definition getTaskComment (taskId commentId : Z) : Prog Json :=
  request ("/tasks/" ++ number_to_string taskId ++ "/comments/"
           ++ number_to_string commentId) "GET" None None.

Definition updateTaskComment (taskId commentId : Z) (comment : Json) : Prog Json :=
  request ("/tasks/" ++ number_to_string taskId ++ "/comments/"
           ++ number_to_string commentId) "POST" (Some comment) None.

Definition deleteTaskComment (taskId commentId : Z) : Prog Json :=
  request ("/tasks/" ++ number_to_string taskId ++ "/comments/"
           ++ number_to_string commentId) "DELETE" None None.

Definition updateTaskLabels (taskId : Z) (labels : Json) : Prog Json :=
  try_catch
    (request ("/tasks/" ++ number_to_string taskId ++ "/labels/bulk") "POST"
             (Some labels) None)
    (fun error =>
       if is_401_or_403 error then
         try_catch
           (request ("/tasks/" ++ number_to_string taskId ++ "/labels/bulk") "POST"
                    (Some labels)
                    (with_headers [("X-API-Token", token_or_empty token)]))
           (fun retryError =>
              if is_401_or_403 retryError then
                try_catch
                  (request ("/tasks/" ++ number_to_string taskId ++ "/labels/bulk")
                           "POST" (Some labels)
                           (with_headers
                              [("authorization", "Bearer " ++ token_interpolated token)]))
                  (fun finalError =>
                     match finalError with
                     | Vikunja _ e =>
                         if instanceof_VikunjaAuthenticationError finalError then
                           Throw (Vikunja LabelAuthenticationError
                                    (mkError
                                       ("Label operation failed due to authentication issue. "
                                        ++ "This may occur even with valid tokens. "
                                        ++ "Original error: " ++ message e)
                                       (endpoint e) (method e) (statusCode e) (response e)))
                         else Throw finalError
                     | JsError _ => Throw finalError
                     end)
              else Throw retryError)
       else Throw error).

Definition createTaskRelation (taskId : Z) (relation : Json) : Prog Json :=
  request ("/tasks/" ++ number_to_string taskId ++ "/relations") "PUT"
          (Some relation) None.

Definition deleteTaskRelation (taskId : Z) (relationKind : string)
    (otherTaskId : Z) : Prog Json :=
  request ("/tasks/" ++ number_to_string taskId ++ "/relations/" ++ relationKind
           ++ "/" ++ number_to_string otherTaskId) "DELETE" None None.

Definition bulkUpdateTasks (operation : Json) : Prog Json :=
  request "/tasks/bulk" "POST" (Some operation) None.

Definition getTaskAttachments (taskId : Z) (params : option Params) : Prog Json :=
  request ("/tasks/" ++ number_to_string taskId ++ "/attachments") "GET" None
          (with_params params).

(** [s || dflt] on strings. *)
Definition string_or (s dflt : string) : string :=
  if string_is_empty s then dflt else s.

(** [errorResponse.message || dflt], as the message of the error built
    from it. *)
Definition message_or (errorResponse : list (string * Json)) (dflt : string)
    : string :=
  match js_get errorResponse "message" with
  | Some v => if truthy v then js_to_string v else dflt
  | None => dflt
  end.

Definition uploadTaskAttachment (taskId : Z) (formData : FormData) : Prog Json :=
  let url := buildUrl baseUrl ("/tasks/" ++ number_to_string taskId ++ "/attachments") None in
  let hdrs : Headers :=
    if token_truthy token
    then [("Authorization", "Bearer " ++ token_interpolated token)]
    else [] in
  try_catch
    (bind (fetch url "PUT" hdrs formData)
       (fun resp =>
          if negb (ok resp) then
            let errorResponse :=
              match json resp with
              | inl errorData => spread errorData
              | inr _ =>
                  [("message",
                    JStr ("API request failed with status "
                          ++ number_to_string (status resp)))]
              end in
            let errorMessage :=
              message_or errorResponse
                ("API request failed with status " ++ number_to_string (status resp)) in
            let endpoint := "/tasks/" ++ number_to_string taskId ++ "/attachments" in
            let method := "PUT" in
            if (status resp =? 401) || (status resp =? 403) then
              Throw (Vikunja VikunjaAuthenticationError
                       (mkError errorMessage endpoint method (status resp)
                                (JObj errorResponse)))
            else
              Throw (Vikunja VikunjaError
                       (mkError errorMessage endpoint method (status resp)
                                (JObj errorResponse)))
          else response_json resp))
    (fun error =>
       if instanceof_VikunjaError error then Throw error
       else
         Throw (Vikunja VikunjaError
                  (mkError (string_or (error_message error) "Network error")
                           ("/tasks/" ++ number_to_string taskId ++ "/attachments")
                           "PUT" 0
                           (JObj [("message",
                                   JStr (string_or (error_message error)
                                                   "Network error"))])))).

Definition getTaskAttachment (taskId attachmentId : Z) : Prog Json :=
  request ("/tasks/" ++ number_to_string taskId ++ "/attachments/"
           ++ number_to_string attachmentId) "GET" None
          (with_responseType "blob").

Definition deleteTaskAttachment (taskId attachmentId : Z) : Prog Json :=
  request ("/tasks/" ++ number_to_string taskId ++ "/attachments/"
           ++ number_to_string attachmentId) "DELETE" None None.

Definition updateTasksAcrossProjects (bulkTask : Json) : Prog Json :=
  request "/tasks/bulk" "POST" (Some bulkTask) None.

Definition getTaskLabels (taskId : Z) (params : option Params) : Prog Json :=
  request ("/tasks/" ++ number_to_string taskId ++ "/labels") "GET" None
          (with_params (convertParams params)).

Definition addLabelToTask (taskId : Z) (labelTask : Json) : Prog Json :=
  try_catch
    (request ("/tasks/" ++ number_to_string taskId ++ "/labels") "PUT"
             (Some labelTask) None)
    (fun error =>
       if is_401_or_403 error then
         try_catch
           (request ("/tasks/" ++ number_to_string taskId ++ "/labels") "PUT"
                    (Some labelTask)
                    (with_headers [("X-API-Token", token_or_empty token)]))
           (fun retryError =>
              if is_401_or_403 retryError then
                try_catch
                  (request ("/tasks/" ++ number_to_string taskId ++ "/labels") "PUT"
                           (Some labelTask)
                           (with_headers
                              [("authorization", "Bearer " ++ token_interpolated token)]))
                  (fun finalError =>
                     match finalError with
                     | Vikunja _ e =>
                         if is_401_or_403 finalError then
                           Throw (Vikunja LabelAuthenticationError
                                    (mkError
                                       ("Label operation failed due to authentication issue. "
                                        ++ "This may occur even with valid tokens. "
                                        ++ "Original error: " ++ message e)
                                       (endpoint e) (method e) (statusCode e) (response e)))
                         else Throw finalError
                     | JsError _ => Throw finalError
                     end)
              else Throw retryError)
       else Throw error).

Definition removeLabelFromTask (taskId labelId : Z) : Prog Json :=
  try_catch
    (request ("/tasks/" ++ number_to_string taskId ++ "/labels/"
              ++ number_to_string labelId) "DELETE" None None)
    (fun error =>
       if is_401_or_403 error then
         try_catch
           (request ("/tasks/" ++ number_to_string taskId ++ "/labels/"
                     ++ number_to_string labelId) "DELETE" None
                    (with_headers [("X-API-Token", token_or_empty token)]))
           (fun retryError =>
              if is_401_or_403 retryError then
                try_catch
                  (request ("/tasks/" ++ number_to_string taskId ++ "/labels/"
                            ++ number_to_string labelId) "DELETE" None
                           (with_headers
                              [("authorization", "Bearer " ++ token_interpolated token)]))
                  (fun finalError =>
                     match finalError with
                     | Vikunja _ e =>
                         if is_401_or_403 finalError then
                           Throw (Vikunja LabelAuthenticationError
                                    (mkError
                                       ("Label operation failed due to authentication issue. "
                                        ++ "This may occur even with valid tokens. "
                                        ++ "Original error: " ++ message e)
                                       (endpoint e) (method e) (statusCode e) (response e)))
                         else Throw finalError
                     | JsError _ => Throw finalError
                     end)
              else Throw retryError)
       else Throw error).

End TaskService.

(** ** The six retried operations, as one family *)

Inductive RetriedOp : Type :=
| AssignUserToTask (taskId userId : Z)
| BulkAssignUsersToTask (taskId : Z) (assignees : Json)
| RemoveUserFromTask (taskId userId : Z)
| UpdateTaskLabels (taskId : Z) (labels : Json)
| AddLabelToTask (taskId : Z) (labelTask : Json)
| RemoveLabelFromTask (taskId labelId : Z).

(** The method of the service an operation names. *)
Definition retried (token : Token) (op : RetriedOp) : Prog Json :=
  match op with
  | AssignUserToTask taskId userId => assignUserToTask token taskId userId
  | BulkAssignUsersToTask taskId assignees => bulkAssignUsersToTask token taskId assignees
  | RemoveUserFromTask taskId userId => removeUserFromTask token taskId userId
  | UpdateTaskLabels taskId labels => updateTaskLabels token taskId labels
  | AddLabelToTask taskId labelTask => addLabelToTask token taskId labelTask
  | RemoveLabelFromTask taskId labelId => removeLabelFromTask token taskId labelId
  end.

(** The endpoint an operation addresses: the path, method and body that
    its method passes to the request primitive. *)
Definition op_path (op : RetriedOp) : string :=
  match op with
  | AssignUserToTask taskId _ =>
      "/tasks/" ++ number_to_string taskId ++ "/assignees"
  | BulkAssignUsersToTask taskId _ =>
      "/tasks/" ++ number_to_string taskId ++ "/assignees/bulk"
  | RemoveUserFromTask taskId userId =>
      "/tasks/" ++ number_to_string taskId ++ "/assignees/" ++ number_to_string userId
  | UpdateTaskLabels taskId _ =>
      "/tasks/" ++ number_to_string taskId ++ "/labels/bulk"
  | AddLabelToTask taskId _ =>
      "/tasks/" ++ number_to_string taskId ++ "/labels"
  | RemoveLabelFromTask taskId labelId =>
      "/tasks/" ++ number_to_string taskId ++ "/labels/" ++ number_to_string labelId
  end.

Definition op_method (op : RetriedOp) : string :=
  match op with
  | AssignUserToTask _ _ => "PUT"
  | BulkAssignUsersToTask _ _ => "POST"
  | RemoveUserFromTask _ _ => "DELETE"
  | UpdateTaskLabels _ _ => "POST"
  | AddLabelToTask _ _ => "PUT"
  | RemoveLabelFromTask _ _ => "DELETE"
  end.

Definition op_body (op : RetriedOp) : option Json :=
  match op with
  | AssignUserToTask _ userId => Some (JObj [("user_id", JNum userId)])
  | BulkAssignUsersToTask _ assignees => Some assignees
  | RemoveUserFromTask _ _ => None
  | UpdateTaskLabels _ labels => Some labels
  | AddLabelToTask _ labelTask => Some labelTask
  | RemoveLabelFromTask _ _ => None
  end.

(** The three attempts of an operation. *)
Definition attempt1 (op : RetriedOp) : RequestCall :=
  mkCall (op_path op) (op_method op) (op_body op) None.

Definition attempt2 (token : Token) (op : RetriedOp) : RequestCall :=
  mkCall (op_path op) (op_method op) (op_body op)
         (with_headers [("X-API-Token", token_or_empty token)]).

Definition attempt3 (token : Token) (op : RetriedOp) : RequestCall :=
  mkCall (op_path op) (op_method op) (op_body op)
         (with_headers [("authorization", "Bearer " ++ token_interpolated token)]).

(** The endpoint family of an operation, which decides the error subtype
    an exhausted cascade raises and the text its message starts with. *)
Inductive Family : Type := AssigneeFamily | LabelFamily.

Definition family (op : RetriedOp) : Family :=
  match op with
  | AssignUserToTask _ _ | BulkAssignUsersToTask _ _ | RemoveUserFromTask _ _ =>
      AssigneeFamily
  | UpdateTaskLabels _ _ | AddLabelToTask _ _ | RemoveLabelFromTask _ _ =>
      LabelFamily
  end.

Definition family_error (f : Family) : ErrorClass :=
  match f with
  | AssigneeFamily => AssigneeAuthenticationError
  | LabelFamily => LabelAuthenticationError
  end.

Definition family_text (f : Family) : string :=
  match f with
  | AssigneeFamily =>
      "Assignee operation failed due to authentication issue. This may occur even with valid tokens. Original error: "
  | LabelFamily =>
      "Label operation failed due to authentication issue. This may occur even with valid tokens. Original error: "
  end.

(** The test the handler of the third attempt applies to its error: the
    class of the error in the assignee operations and in [updateTaskLabels],
    its status in [addLabelToTask] and [removeLabelFromTask]. *)
Definition final_test (op : RetriedOp) (finalError : Thrown) : bool :=
  match op with
  | AddLabelToTask _ _ | RemoveLabelFromTask _ _ => is_401_or_403 finalError
  | _ => instanceof_VikunjaAuthenticationError finalError
  end.

(** What the handler of the third attempt throws. *)
Definition final_throw (op : RetriedOp) (finalError : Thrown) : Thrown :=
  match finalError with
  | Vikunja _ e =>
      if final_test op finalError then
        Vikunja (family_error (family op))
                (mkError (family_text (family op) ++ message e)
                         (endpoint e) (method e) (statusCode e) (response e))
      else finalError
  | JsError _ => finalError
  end.

(** The cascade written once: what the six methods have in common. *)
Definition cascade (env : Env) (token : Token) (op : RetriedOp) (tr : Trace)
    : (Json + Thrown) * Trace :=
  let a1 := attempt1 op in
  let a2 := attempt2 token op in
  let a3 := attempt3 token op in
  match on_request env tr a1 with
  | inl value => (inl value, tr ++ [EvRequest a1])%list
  | inr error =>
      if is_401_or_403 error then
        match on_request env (tr ++ [EvRequest a1])%list a2 with
        | inl value => (inl value, tr ++ [EvRequest a1; EvRequest a2])%list
        | inr retryError =>
            if is_401_or_403 retryError then
              match on_request env (tr ++ [EvRequest a1; EvRequest a2])%list a3 with
              | inl value =>
                  (inl value, tr ++ [EvRequest a1; EvRequest a2; EvRequest a3])%list
              | inr finalError =>
                  (inr (final_throw op finalError),
                   tr ++ [EvRequest a1; EvRequest a2; EvRequest a3])%list
              end
            else (inr retryError, tr ++ [EvRequest a1; EvRequest a2])%list
        end
      else (inr error, tr ++ [EvRequest a1])%list
  end.

(** ** The request primitive's contract, and environments to run against *)

(** Modelled from the spec: the error contract of the request primitive of
    core/service.js, which is not among the sources.  It raises a typed
    error carrying message, endpoint, method, status code and response, of
    the authentication subtype exactly when the status code is 401 or 403. *)
Definition request_contract (env : Env) : Prop :=
  forall tr c cls e,
    on_request env tr c = inr (Vikunja cls e) ->
    (subclass_of_authentication cls = true <->
     statusCode e = 401 \/ statusCode e = 403).

(** An attempt failed with HTTP status 401 or 403. *)
Definition auth_failure (o : Json + Thrown) : Prop :=
  exists cls e, o = inr (Vikunja cls e) /\ (statusCode e = 401 \/ statusCode e = 403).

(** The error carries the given status code. *)
Definition has_status (error : Thrown) (code : Z) : Prop :=
  exists cls e, error = Vikunja cls e /\ statusCode e = code.

(** An environment that answers the n-th call to the request primitive
    with the n-th entry of a script. *)
Definition scripted (answers : list (Json + Thrown)) : Env :=
  mkEnv (fun tr _ => nth (length tr) answers (inl JNull))
        (fun _ _ => FetchRejected "Network error").

(** An environment whose [fetch] always settles the same way. *)
Definition fetching (o : FetchOutcome) : Env :=
  mkEnv (fun _ _ => inl JNull) (fun _ _ => o).

(** The error the request primitive raises for a response of the given
    status, under its contract. *)
Definition api_error (path verb : string) (code : Z) (text : string) : Thrown :=
  Vikunja (if (code =? 401) || (code =? 403)
           then VikunjaAuthenticationError else VikunjaError)
          (mkError text path verb code (JObj [("message", JStr text)])).

(** [needle] occurs in [hay]. *)
Definition contains (hay needle : string) : Prop :=
  exists before after, hay = before ++ needle ++ after.

(** An environment in which every call to the request primitive fails
    with the given status. *)
Definition refusing (code : Z) (text : string) : Env :=
  mkEnv (fun _ c => inr (api_error (req_path c) (req_method c) code text))
        (fun _ _ => FetchRejected "Network error").

(** ** The methods that do not retry *)

Inductive Operation : Type :=
| GetAllTasks (params : option Params)
| GetProjectTasks (projectId : Z) (params : option Params)
| CreateTask (projectId : Z) (task : Json)
| GetTask (taskId : Z)
| UpdateTask (taskId : Z) (task : Json)
| DeleteTask (taskId : Z)
| MarkTaskDone (taskId : Z)
| MarkTaskUndone (taskId : Z)
| GetTaskAssignees (taskId : Z) (params : option Params)
| GetTaskComments (taskId : Z)
| CreateTaskComment (taskId : Z) (comment : Json)
| GetTaskComment (taskId commentId : Z)
| UpdateTaskComment (taskId commentId : Z) (comment : Json)
| DeleteTaskComment (taskId commentId : Z)
| CreateTaskRelation (taskId : Z) (relation : Json)
| DeleteTaskRelation (taskId : Z) (relationKind : string) (otherTaskId : Z)
| BulkUpdateTasks (operation : Json)
| GetTaskAttachments (taskId : Z) (params : option Params)
| UploadTaskAttachment (taskId : Z) (formData : FormData)
| GetTaskAttachment (taskId attachmentId : Z)
| DeleteTaskAttachment (taskId attachmentId : Z)
| UpdateTasksAcrossProjects (bulkTask : Json)
| GetTaskLabels (taskId : Z) (params : option Params).

(** The method of the service an operation names. *)
Definition perform (baseUrl : string) (token : Token)
    (convertParams : option Params -> option Params) (op : Operation) : Prog Json :=
  match op with
  | GetAllTasks params => getAllTasks params
  | GetProjectTasks projectId params => getProjectTasks projectId params
  | CreateTask projectId task => createTask projectId task
  | GetTask taskId => getTask taskId
  | UpdateTask taskId task => updateTask taskId task
  | DeleteTask taskId => deleteTask taskId
  | MarkTaskDone taskId => markTaskDone taskId
  | MarkTaskUndone taskId => markTaskUndone taskId
  | GetTaskAssignees taskId params => getTaskAssignees taskId params
  | GetTaskComments taskId => getTaskComments taskId
  | CreateTaskComment taskId comment => createTaskComment taskId comment
  | GetTaskComment taskId commentId => getTaskComment taskId commentId
  | UpdateTaskComment taskId commentId comment =>
      updateTaskComment taskId commentId comment
  | DeleteTaskComment taskId commentId => deleteTaskComment taskId commentId
  | CreateTaskRelation taskId relation => createTaskRelation taskId relation
  | DeleteTaskRelation taskId relationKind otherTaskId =>
      deleteTaskRelation taskId relationKind otherTaskId
  | BulkUpdateTasks operation => bulkUpdateTasks operation
  | GetTaskAttachments taskId params => getTaskAttachments taskId params
  | UploadTaskAttachment taskId formData =>
      uploadTaskAttachment baseUrl token taskId formData
  | GetTaskAttachment taskId attachmentId => getTaskAttachment taskId attachmentId
  | DeleteTaskAttachment taskId attachmentId =>
      deleteTaskAttachment taskId attachmentId
  | UpdateTasksAcrossProjects bulkTask => updateTasksAcrossProjects bulkTask
  | GetTaskLabels taskId params => getTaskLabels convertParams taskId params
  end.

(** The specification's REST convention: the kind of an operation fixes
    its HTTP method. *)
Inductive OperationKind : Type :=
| CreateStyle
| UpdateStyle
| ReadStyle
| RemovalStyle.

Definition spec_method (k : OperationKind) : string :=
  match k with
  | CreateStyle => "PUT"
  | UpdateStyle => "POST"
  | ReadStyle => "GET"
  | RemovalStyle => "DELETE"
  end.

(** The kind of each operation in the specification's words: creations
    (tasks, comments, relations, uploaded attachments); updates, bulk
    operations and the done-state toggles; reads; removals. *)
Definition spec_kind (op : Operation) : OperationKind :=
  match op with
  | CreateTask _ _ | CreateTaskComment _ _ | CreateTaskRelation _ _
  | UploadTaskAttachment _ _ => CreateStyle
  | UpdateTask _ _ | UpdateTaskComment _ _ _ | BulkUpdateTasks _
  | UpdateTasksAcrossProjects _ | MarkTaskDone _ | MarkTaskUndone _ => UpdateStyle
  | GetAllTasks _ | GetProjectTasks _ _ | GetTask _ | GetTaskAssignees _ _
  | GetTaskComments _ | GetTaskComment _ _ | GetTaskAttachments _ _
  | GetTaskAttachment _ _ | GetTaskLabels _ _ => ReadStyle
  | DeleteTask _ | DeleteTaskComment _ _ | DeleteTaskRelation _ _ _
  | DeleteTaskAttachment _ _ => RemovalStyle
  end.

Definition idstr (n : Z) : string := number_to_string n.

(** The endpoint of each operation in the specification's table of the
    exposed HTTP surface, with the identifiers filled in. *)
Definition spec_path (op : Operation) : string :=
  match op with
  | GetAllTasks _ => "/tasks"
  | GetProjectTasks projectId _ => "/projects/" ++ idstr projectId ++ "/tasks"
  | CreateTask projectId _ => "/projects/" ++ idstr projectId ++ "/tasks"
  | GetTask taskId | UpdateTask taskId _ | DeleteTask taskId => "/tasks/" ++ idstr taskId
  | MarkTaskDone taskId => "/tasks/" ++ idstr taskId ++ "/done"
  | MarkTaskUndone taskId => "/tasks/" ++ idstr taskId ++ "/undone"
  | GetTaskAssignees taskId _ => "/tasks/" ++ idstr taskId ++ "/assignees"
  | GetTaskComments taskId | CreateTaskComment taskId _ =>
      "/tasks/" ++ idstr taskId ++ "/comments"
  | GetTaskComment taskId commentId | UpdateTaskComment taskId commentId _
  | DeleteTaskComment taskId commentId =>
      "/tasks/" ++ idstr taskId ++ "/comments/" ++ idstr commentId
  | CreateTaskRelation taskId _ => "/tasks/" ++ idstr taskId ++ "/relations"
  | DeleteTaskRelation taskId relationKind otherTaskId =>
      "/tasks/" ++ idstr taskId ++ "/relations/" ++ relationKind ++ "/" ++ idstr otherTaskId
  | BulkUpdateTasks _ | UpdateTasksAcrossProjects _ => "/tasks/bulk"
  | GetTaskAttachments taskId _ | UploadTaskAttachment taskId _ =>
      "/tasks/" ++ idstr taskId ++ "/attachments"
  | GetTaskAttachment taskId attachmentId | DeleteTaskAttachment taskId attachmentId =>
      "/tasks/" ++ idstr taskId ++ "/attachments/" ++ idstr attachmentId
  | GetTaskLabels taskId _ => "/tasks/" ++ idstr taskId ++ "/labels"
  end.

(** The event is a call with the given HTTP method to the given endpoint:
    a call to the request primitive names the path, a direct [fetch] the
    URL built from it. *)
Definition addresses (baseUrl : string) (ev : Event) (verb path : string) : Prop :=
  match ev with
  | EvRequest c => req_method c = verb /\ req_path c = path
  | EvFetch c => fetch_method c = verb /\ fetch_url c = baseUrl ++ path
  end.

(** ** Lemmas on the cascade *)

(** ** Views used by the further properties *)

(** The methods whose third handler tests the class of the error
    ([finalError instanceof VikunjaAuthenticationError]): the assignee
    methods and [updateTaskLabels].  The handlers of [addLabelToTask] and
    [removeLabelFromTask] test its status code instead. *)
Definition tests_error_class (op : RetriedOp) : bool :=
  match op with
  | AssignUserToTask _ _ | BulkAssignUsersToTask _ _ | RemoveUserFromTask _ _
  | UpdateTaskLabels _ _ => true
  | AddLabelToTask _ _ | RemoveLabelFromTask _ _ => false
  end.

(** The error an exhausted cascade builds from the error of its third
    attempt: [new AssigneeAuthenticationError(...)] in the assignee methods,
    [new LabelAuthenticationError(...)] in the label methods. *)
Definition family_wrap (op : RetriedOp) (e : ErrorFields) : Thrown :=
  Vikunja (family_error (family op))
          (mkError (family_text (family op) ++ message e)
                   (endpoint e) (method e) (statusCode e) (response e)).

(** The three calls of an exhausted cascade. *)
Definition three_attempts (token : Token) (op : RetriedOp) : list Event :=
  [EvRequest (attempt1 op); EvRequest (attempt2 token op);
   EvRequest (attempt3 token op)].

(** The methods that go through the request primitive: every one but the
    upload, which calls [fetch] itself. *)
Definition uses_request (op : Operation) : bool :=
  match op with
  | UploadTaskAttachment _ _ => false
  | _ => true
  end.

(** The call [uploadTaskAttachment] hands to [fetch]. *)
Definition upload_call (baseUrl : string) (token : Token) (taskId : Z)
    (formData : FormData) : FetchCall :=
  mkFetch (baseUrl ++ "/tasks/" ++ number_to_string taskId ++ "/attachments")
          "PUT"
          (match token with
           | Some t =>
               if string_is_empty t then [] else [("Authorization", "Bearer " ++ t)]
           | None => []
           end)
          formData.

(** The endpoint [uploadTaskAttachment] records in the errors it throws. *)
Definition upload_endpoint (taskId : Z) : string :=
  "/tasks/" ++ number_to_string taskId ++ "/attachments".

(** The class of the error the upload throws for a response of the given
    status: [response.status === 401 || response.status === 403]. *)
Definition upload_error_class (code : Z) : ErrorClass :=
  if (code =? 401) || (code =? 403)
  then VikunjaAuthenticationError else VikunjaError.

(** The message the upload falls back to:
    [`API request failed with status ${response.status}`]. *)
Definition upload_default_message (code : Z) : string :=
  "API request failed with status " ++ number_to_string code.

Ltac norm_trace := repeat rewrite <- app_assoc; cbn [app].

(** Rewriting the answer of [fetch] into the goal, up to conversion of the
    call. *)
Ltac fetch_answer H :=
  match type of H with
  | _ = ?answer =>
      match goal with
      | |- context [on_fetch ?env ?tr ?c] =>
          replace (on_fetch env tr c) with answer by (symmetry; exact H)
      end
  end.

(** Each of the six methods runs as the cascade does. *)
Lemma run_retried (env : Env) (token : Token) (op : RetriedOp) (tr : Trace) :
  run env (retried token op) tr = cascade env token op tr.
Proof.
  unfold cascade, attempt1, attempt2, attempt3.
  destruct op; cbn [retried op_path op_method op_body];
    cbn [assignUserToTask bulkAssignUsersToTask removeUserFromTask
         updateTaskLabels addLabelToTask removeLabelFromTask
         request try_catch run];
    (destruct (on_request env tr _) as [v1 | e1]; cbn [try_catch run]; [reflexivity |]);
    (destruct (is_401_or_403 e1); cbn [try_catch run]; [| reflexivity]);
    norm_trace;
    (destruct (on_request env _ _) as [v2 | e2]; cbn [try_catch run];
       norm_trace; [reflexivity |]);
    (destruct (is_401_or_403 e2); cbn [try_catch run]; norm_trace; [| reflexivity]);
    (destruct (on_request env _ _) as [v3 | e3]; cbn [try_catch run];
       norm_trace; [reflexivity |]);
    unfold final_throw, final_test;
    destruct e3 as [msg | cls e]; cbn [try_catch run]; norm_trace; try reflexivity;
    cbn [instanceof_VikunjaAuthenticationError family family_error family_text];
    match goal with |- context [if ?b then _ else _] => destruct b end;
    cbn [try_catch run]; norm_trace; reflexivity.
Qed.

Lemma auth_failure_inr (error : Thrown) :
  auth_failure (inr error) -> is_401_or_403 error = true.
Proof.
  intros (cls & e & Heq & Hcode). injection Heq as ->. cbn.
  destruct Hcode as [-> | ->]; reflexivity.
Qed.

Lemma auth_failure_inv (o : Json + Thrown) :
  auth_failure o -> exists error, o = inr error /\ is_401_or_403 error = true.
Proof.
  intros H. destruct o as [value | error].
  - destruct H as (cls & e & Heq & _). discriminate Heq.
  - exists error. split; [reflexivity | now apply auth_failure_inr].
Qed.

Lemma is_401_or_403_status (error : Thrown) :
  is_401_or_403 error = true <-> has_status error 401 \/ has_status error 403.
Proof.
  unfold has_status. destruct error as [msg | cls e]; cbn.
  - split; [discriminate |].
    intros [(c & e & H & _) | (c & e & H & _)]; discriminate H.
  - rewrite orb_true_iff, !Z.eqb_eq. split.
    + intros [H | H]; [left | right]; now exists cls, e.
    + intros [(c & e' & H & Hc) | (c & e' & H & Hc)];
        injection H as _ <-; [left | right]; exact Hc.
Qed.

Lemma not_401_403 (error : Thrown) :
  ~ has_status error 401 -> ~ has_status error 403 -> is_401_or_403 error = false.
Proof.
  intros H1 H3. destruct (is_401_or_403 error) eqn:E; [| reflexivity].
  apply is_401_or_403_status in E. tauto.
Qed.

Lemma is_401_or_403_auth_failure (error : Thrown) :
  is_401_or_403 error = true -> auth_failure (inr error).
Proof.
  destruct error as [msg | cls e]; cbn; [discriminate |].
  rewrite orb_true_iff, !Z.eqb_eq. intros H. now exists cls, e.
Qed.

(** Under the primitive's contract the two tests of the third handler
    agree on the errors the primitive raises. *)
Lemma final_test_status (env : Env) (op : RetriedOp) (tr : Trace)
    (c : RequestCall) (error : Thrown) :
  request_contract env ->
  on_request env tr c = inr error ->
  final_test op error = is_401_or_403 error.
Proof.
  intros Hc Ho. destruct error as [msg | cls e].
  - destruct op; reflexivity.
  - specialize (Hc tr c cls e Ho).
    assert (Hs : subclass_of_authentication cls = is_401_or_403 (Vikunja cls e)).
    { cbn. destruct (subclass_of_authentication cls) eqn:Ea.
      - symmetry. rewrite orb_true_iff, !Z.eqb_eq. now apply Hc.
      - symmetry. apply not_true_is_false. rewrite orb_true_iff, !Z.eqb_eq.
        intros H. apply Hc in H. discriminate H. }
    destruct op; cbn [final_test instanceof_VikunjaAuthenticationError];
      solve [exact Hs | reflexivity].
Qed.

(** ** The claims on the cascade *)

(** C3.  For every retried operation: when the first attempt succeeds the
    cascade issues exactly that one request and resolves with its response;
    when the first attempt fails with status 401 or 403 and the second
    succeeds, it issues exactly those two requests and resolves with the
    response of the second. *)
Theorem cascade_stops_at_first_success
    (env : Env) (token : Token) (op : RetriedOp) (tr : Trace) :
  (forall value,
      on_request env tr (attempt1 op) = inl value ->
      run env (retried token op) tr
      = (inl value, (tr ++ [EvRequest (attempt1 op)])%list))
  /\
  (forall value,
      auth_failure (on_request env tr (attempt1 op)) ->
      on_request env (tr ++ [EvRequest (attempt1 op)])%list (attempt2 token op)
      = inl value ->
      run env (retried token op) tr
      = (inl value,
         (tr ++ [EvRequest (attempt1 op); EvRequest (attempt2 token op)])%list)).
Proof.
  rewrite run_retried. unfold cascade. split.
  - intros value ->. reflexivity.
  - intros value H1 H2.
    apply auth_failure_inv in H1 as (e1 & -> & ->). now rewrite H2.
Qed.

Lemma cascade_stops_at_first_success_witness :
  run (scripted [inl (JNum 1)]) (retried (Some "secret") (AssignUserToTask 5 9)) []
  = (inl (JNum 1), [EvRequest (attempt1 (AssignUserToTask 5 9))])
  /\
  run (scripted [inr (api_error "/tasks/5/labels/2" "DELETE" 401 "Unauthorized");
                 inl (JStr "removed")])
      (retried (Some "secret") (RemoveLabelFromTask 5 2)) []
  = (inl (JStr "removed"),
     [EvRequest (attempt1 (RemoveLabelFromTask 5 2));
      EvRequest (attempt2 (Some "secret") (RemoveLabelFromTask 5 2))]).
Proof.
  split.
  - apply (proj1 (cascade_stops_at_first_success
                    (scripted [inl (JNum 1)]) (Some "secret")
                    (AssignUserToTask 5 9) [])).
    reflexivity.
  - apply (proj2 (cascade_stops_at_first_success
                    (scripted [inr (api_error "/tasks/5/labels/2" "DELETE" 401
                                              "Unauthorized");
                               inl (JStr "removed")])
                    (Some "secret") (RemoveLabelFromTask 5 2) [])).
    + eexists _, _. split; [reflexivity | left; reflexivity].
    + reflexivity.
Defined.

(** C2.  For every retried operation: when an attempt (the first, the
    second or the third) fails with an error whose status is neither 401
    nor 403, no further attempt is issued and the cascade rejects with that
    very error.  A failure of the first attempt of this kind leaves exactly
    one request issued.  For the third attempt the request primitive is
    taken to keep its contract. *)
Theorem non_auth_failure_propagates_unchanged
    (env : Env) (token : Token) (op : RetriedOp) (tr : Trace) (error : Thrown) :
  ~ has_status error 401 ->
  ~ has_status error 403 ->
  (on_request env tr (attempt1 op) = inr error ->
   run env (retried token op) tr
   = (inr error, (tr ++ [EvRequest (attempt1 op)])%list))
  /\
  (auth_failure (on_request env tr (attempt1 op)) ->
   on_request env (tr ++ [EvRequest (attempt1 op)])%list (attempt2 token op)
   = inr error ->
   run env (retried token op) tr
   = (inr error,
      (tr ++ [EvRequest (attempt1 op); EvRequest (attempt2 token op)])%list))
  /\
  (request_contract env ->
   auth_failure (on_request env tr (attempt1 op)) ->
   auth_failure
     (on_request env (tr ++ [EvRequest (attempt1 op)])%list (attempt2 token op)) ->
   on_request env
     (tr ++ [EvRequest (attempt1 op); EvRequest (attempt2 token op)])%list
     (attempt3 token op)
   = inr error ->
   run env (retried token op) tr
   = (inr error,
      (tr ++ [EvRequest (attempt1 op); EvRequest (attempt2 token op);
              EvRequest (attempt3 token op)])%list)).
Proof.
  intros H401 H403.
  pose proof (not_401_403 error H401 H403) as Hno.
  rewrite run_retried. unfold cascade. repeat split.
  - intros ->. now rewrite Hno.
  - intros H1 H2. apply auth_failure_inv in H1 as (e1 & -> & ->).
    now rewrite H2, Hno.
  - intros Hc H1 H2 H3.
    apply auth_failure_inv in H1 as (e1 & -> & ->).
    apply auth_failure_inv in H2 as (e2 & -> & ->).
    rewrite H3. f_equal. f_equal.
    unfold final_throw. destruct error as [msg | cls e]; [reflexivity |].
    now rewrite (final_test_status env op _ _ _ Hc H3), Hno.
Qed.

Lemma scripted_contract (answers : list (Json + Thrown)) :
  Forall (fun o => forall cls e,
              o = inr (Vikunja cls e) ->
              (subclass_of_authentication cls = true <->
               statusCode e = 401 \/ statusCode e = 403)) answers ->
  request_contract (scripted answers).
Proof.
  intros Hall tr c cls e. cbn.
  destruct (nth_in_or_default (length tr) answers (inl JNull)) as [Hin | ->].
  - rewrite Forall_forall in Hall. intros Ho. exact (Hall _ Hin cls e Ho).
  - discriminate.
Qed.

Lemma api_error_contract (path verb : string) (code : Z) (text : string)
    (cls : ErrorClass) (e : ErrorFields) :
  @inr Json Thrown (api_error path verb code text) = inr (Vikunja cls e) ->
  (subclass_of_authentication cls = true <->
   statusCode e = 401 \/ statusCode e = 403).
Proof.
  unfold api_error. intros H. injection H as <- <-. cbn [statusCode].
  destruct ((code =? 401) || (code =? 403)) eqn:E; cbn.
  - rewrite orb_true_iff, !Z.eqb_eq in E. tauto.
  - rewrite orb_false_iff, !Z.eqb_neq in E. split; [discriminate | tauto].
Qed.

Lemma refusing_contract (code : Z) (text : string) :
  request_contract (refusing code text).
Proof.
  intros tr c cls e. cbn. apply api_error_contract.
Qed.

Lemma api_error_status (path verb : string) (code other : Z) (text : string) :
  code <> other -> ~ has_status (api_error path verb code text) other.
Proof.
  intros Hne (cls & e & Heq & Hs). unfold api_error in Heq.
  injection Heq as _ <-. cbn in Hs. contradiction.
Qed.

Lemma non_auth_failure_propagates_unchanged_witness :
  run (scripted [inr (api_error "/tasks/5/assignees" "PUT" 500 "Internal Server Error")])
      (retried (Some "secret") (AssignUserToTask 5 9)) []
  = (inr (api_error "/tasks/5/assignees" "PUT" 500 "Internal Server Error"),
     [EvRequest (attempt1 (AssignUserToTask 5 9))])
  /\
  run (scripted [inr (api_error "/tasks/5/assignees" "PUT" 401 "Unauthorized");
                 inr (api_error "/tasks/5/assignees" "PUT" 403 "Forbidden");
                 inr (api_error "/tasks/5/assignees" "PUT" 404 "Not Found")])
      (retried (Some "secret") (AssignUserToTask 5 9)) []
  = (inr (api_error "/tasks/5/assignees" "PUT" 404 "Not Found"),
     [EvRequest (attempt1 (AssignUserToTask 5 9));
      EvRequest (attempt2 (Some "secret") (AssignUserToTask 5 9));
      EvRequest (attempt3 (Some "secret") (AssignUserToTask 5 9))]).
Proof.
  split.
  - apply (proj1 (non_auth_failure_propagates_unchanged
                    (scripted [inr (api_error "/tasks/5/assignees" "PUT" 500
                                              "Internal Server Error")])
                    (Some "secret") (AssignUserToTask 5 9) []
                    (api_error "/tasks/5/assignees" "PUT" 500 "Internal Server Error")
                    (api_error_status _ _ 500 401 _ ltac:(lia))
                    (api_error_status _ _ 500 403 _ ltac:(lia)))).
    reflexivity.
  - apply (proj2 (proj2 (non_auth_failure_propagates_unchanged
                    (scripted [inr (api_error "/tasks/5/assignees" "PUT" 401
                                              "Unauthorized");
                               inr (api_error "/tasks/5/assignees" "PUT" 403
                                              "Forbidden");
                               inr (api_error "/tasks/5/assignees" "PUT" 404
                                              "Not Found")])
                    (Some "secret") (AssignUserToTask 5 9) []
                    (api_error "/tasks/5/assignees" "PUT" 404 "Not Found")
                    (api_error_status _ _ 404 401 _ ltac:(lia))
                    (api_error_status _ _ 404 403 _ ltac:(lia))))).
    + apply scripted_contract.
      repeat (apply Forall_cons; [apply api_error_contract |]).
      apply Forall_nil.
    + eexists _, _. split; [reflexivity | left; reflexivity].
    + eexists _, _. split; [reflexivity | right; reflexivity].
    + reflexivity.
Defined.

(** The run of a cascade whose three attempts are refused. *)
Lemma exhausted_cascade_run
    (env : Env) (token : Token) (op : RetriedOp) (tr : Trace)
    (cls : ErrorClass) (e : ErrorFields) :
  request_contract env ->
  auth_failure (on_request env tr (attempt1 op)) ->
  auth_failure
    (on_request env (tr ++ [EvRequest (attempt1 op)])%list (attempt2 token op)) ->
  on_request env
    (tr ++ [EvRequest (attempt1 op); EvRequest (attempt2 token op)])%list
    (attempt3 token op)
  = inr (Vikunja cls e) ->
  (statusCode e = 401 \/ statusCode e = 403)
  \/ instanceof_VikunjaAuthenticationError (Vikunja cls e) = true ->
  run env (retried token op) tr
  = (inr (Vikunja (family_error (family op))
                  (mkError (family_text (family op) ++ message e)
                           (endpoint e) (method e) (statusCode e) (response e))),
     (tr ++ [EvRequest (attempt1 op); EvRequest (attempt2 token op);
             EvRequest (attempt3 token op)])%list).
Proof.
  intros Hc H1 H2 H3 Hauth.
  assert (Ht : final_test op (Vikunja cls e) = true).
  { rewrite (final_test_status env op _ _ _ Hc H3).
    destruct Hauth as [Hs | Hi].
    - cbn. rewrite orb_true_iff, !Z.eqb_eq. exact Hs.
    - cbn in Hi. apply (Hc _ _ _ _ H3) in Hi.
      cbn. rewrite orb_true_iff, !Z.eqb_eq. exact Hi. }
  apply auth_failure_inv in H1 as (e1 & E1 & R1).
  apply auth_failure_inv in H2 as (e2 & E2 & R2).
  rewrite run_retried. unfold cascade.
  rewrite E1, R1, E2, R2, H3. unfold final_throw. rewrite Ht. reflexivity.
Qed.

(** C1.  For every retried operation, against a request primitive that
    keeps its contract: when the first two attempts failed with 401 or 403
    and the third fails with status 401 or 403, or with an error of the
    authentication class, the cascade rejects with the error subtype of the
    operation's endpoint family (the assignee error for the assignee
    operations, the label error for the label operations); its message is
    the family's text followed by the message of the third attempt's error,
    and its endpoint, method, status code and response are those of that
    error. *)
Theorem exhausted_cascade_raises_family_error
    (env : Env) (token : Token) (op : RetriedOp) (tr : Trace)
    (cls : ErrorClass) (e : ErrorFields) :
  request_contract env ->
  auth_failure (on_request env tr (attempt1 op)) ->
  auth_failure
    (on_request env (tr ++ [EvRequest (attempt1 op)])%list (attempt2 token op)) ->
  on_request env
    (tr ++ [EvRequest (attempt1 op); EvRequest (attempt2 token op)])%list
    (attempt3 token op)
  = inr (Vikunja cls e) ->
  (statusCode e = 401 \/ statusCode e = 403)
  \/ instanceof_VikunjaAuthenticationError (Vikunja cls e) = true ->
  exists raised,
    run env (retried token op) tr
    = (inr (Vikunja (match op with
                     | AssignUserToTask _ _ | BulkAssignUsersToTask _ _
                     | RemoveUserFromTask _ _ => AssigneeAuthenticationError
                     | UpdateTaskLabels _ _ | AddLabelToTask _ _
                     | RemoveLabelFromTask _ _ => LabelAuthenticationError
                     end) raised),
       (tr ++ [EvRequest (attempt1 op); EvRequest (attempt2 token op);
               EvRequest (attempt3 token op)])%list)
    /\ message raised = family_text (family op) ++ message e
    /\ endpoint raised = endpoint e
    /\ method raised = method e
    /\ statusCode raised = statusCode e
    /\ response raised = response e.
Proof.
  intros Hc H1 H2 H3 Hauth.
  eexists. split.
  - rewrite (exhausted_cascade_run env token op tr cls e Hc H1 H2 H3 Hauth).
    destruct op; reflexivity.
  - cbn. repeat split; reflexivity.
Qed.

Lemma exhausted_cascade_raises_family_error_witness :
  exists raised,
    run (refusing 401 "missing, malformed, expired or otherwise invalid token provided")
        (retried (Some "secret") (AddLabelToTask 5 (JObj [("label_id", JNum 3)]))) []
    = (inr (Vikunja LabelAuthenticationError raised),
       [EvRequest (attempt1 (AddLabelToTask 5 (JObj [("label_id", JNum 3)])));
        EvRequest (attempt2 (Some "secret")
                            (AddLabelToTask 5 (JObj [("label_id", JNum 3)])));
        EvRequest (attempt3 (Some "secret")
                            (AddLabelToTask 5 (JObj [("label_id", JNum 3)])))])
    /\ message raised
       = family_text LabelFamily
         ++ "missing, malformed, expired or otherwise invalid token provided"
    /\ endpoint raised = "/tasks/5/labels"
    /\ method raised = "PUT"
    /\ statusCode raised = 401
    /\ response raised
       = JObj [("message",
                JStr "missing, malformed, expired or otherwise invalid token provided")].
Proof.
  refine (exhausted_cascade_raises_family_error
            (refusing 401 "missing, malformed, expired or otherwise invalid token provided")
            (Some "secret") (AddLabelToTask 5 (JObj [("label_id", JNum 3)])) []
            VikunjaAuthenticationError
            (mkError "missing, malformed, expired or otherwise invalid token provided"
                     "/tasks/5/labels" "PUT" 401
                     (JObj [("message",
                             JStr "missing, malformed, expired or otherwise invalid token provided")]))
            (refusing_contract _ _) _ _ _ _).
  - eexists _, _. split; [reflexivity | left; reflexivity].
  - eexists _, _. split; [reflexivity | left; reflexivity].
  - reflexivity.
  - left. left. reflexivity.
Defined.

Lemma token_or_empty_some (t : string) : token_or_empty (Some t) = t.
Proof. destruct t; reflexivity. Qed.

Lemma not_auth_failure (error : Thrown) :
  is_401_or_403 error = false -> ~ auth_failure (inr error).
Proof.
  intros Hno H. apply auth_failure_inr in H. congruence.
Qed.

Lemma success_not_auth_failure (value : Json) : ~ auth_failure (inl value).
Proof. intros (cls & e & H & _). discriminate H. Qed.

(** The calls a cascade issues, whatever the environment: the first
    attempt; the second exactly when the first failed with 401 or 403; the
    third exactly when the second did too. *)
Lemma cascade_trace (env : Env) (token : Token) (op : RetriedOp) (tr : Trace) :
  let o1 := on_request env tr (attempt1 op) in
  let o2 := on_request env (tr ++ [EvRequest (attempt1 op)])%list (attempt2 token op) in
  (snd (cascade env token op tr) = (tr ++ [EvRequest (attempt1 op)])%list
   /\ ~ auth_failure o1)
  \/
  (snd (cascade env token op tr)
   = (tr ++ [EvRequest (attempt1 op); EvRequest (attempt2 token op)])%list
   /\ auth_failure o1 /\ ~ auth_failure o2)
  \/
  (snd (cascade env token op tr)
   = (tr ++ [EvRequest (attempt1 op); EvRequest (attempt2 token op);
             EvRequest (attempt3 token op)])%list
   /\ auth_failure o1 /\ auth_failure o2).
Proof.
  cbv zeta. unfold cascade.
  destruct (on_request env tr (attempt1 op)) as [v1 | e1] eqn:E1.
  { left. split; [reflexivity | apply success_not_auth_failure]. }
  destruct (is_401_or_403 e1) eqn:R1.
  2: { left. split; [reflexivity | now apply not_auth_failure]. }
  right.
  destruct (on_request env _ (attempt2 token op)) as [v2 | e2] eqn:E2.
  { left. repeat split;
      [now apply is_401_or_403_auth_failure | apply success_not_auth_failure]. }
  destruct (is_401_or_403 e2) eqn:R2.
  2: { left. repeat split;
         [now apply is_401_or_403_auth_failure | now apply not_auth_failure]. }
  right.
  destruct (on_request env _ (attempt3 token op)); cbn [snd];
    repeat split; now apply is_401_or_403_auth_failure.
Qed.

(** C4.  For every retried operation of a client with a token: the calls
    the cascade issues all have the operation's method, path and body.  The
    first is made without options; the second, issued exactly when the
    first failed with 401 or 403, passes as its only option the header
    X-API-Token with the raw token; the third, issued exactly when the
    second failed with 401 or 403 as well, passes as its only option the
    lowercase header authorization with the token after the Bearer
    prefix. *)
Theorem attempts_share_the_request_and_swap_headers
    (env : Env) (t : string) (op : RetriedOp) (tr : Trace) :
  let first :=
    {| req_path := op_path op; req_method := op_method op; req_body := op_body op;
       req_options := None |} in
  let second :=
    {| req_path := op_path op; req_method := op_method op; req_body := op_body op;
       req_options :=
         Some {| params := None;
                 headers := Some [("X-API-Token", t)];
                 responseType := None |} |} in
  let third :=
    {| req_path := op_path op; req_method := op_method op; req_body := op_body op;
       req_options :=
         Some {| params := None;
                 headers := Some [("authorization", "Bearer " ++ t)];
                 responseType := None |} |} in
  let issued := snd (run env (retried (Some t) op) tr) in
  (issued = (tr ++ [EvRequest first])%list
   /\ ~ auth_failure (on_request env tr first))
  \/
  (issued = (tr ++ [EvRequest first; EvRequest second])%list
   /\ auth_failure (on_request env tr first)
   /\ ~ auth_failure (on_request env (tr ++ [EvRequest first])%list second))
  \/
  (issued = (tr ++ [EvRequest first; EvRequest second; EvRequest third])%list
   /\ auth_failure (on_request env tr first)
   /\ auth_failure (on_request env (tr ++ [EvRequest first])%list second)).
Proof.
  cbv zeta. rewrite run_retried.
  pose proof (cascade_trace env (Some t) op tr) as H. cbv zeta in H.
  unfold attempt1, attempt2, attempt3 in H.
  rewrite token_or_empty_some in H. exact H.
Qed.

Lemma attempts_share_the_request_and_swap_headers_witness :
  snd (run (refusing 401 "Unauthorized")
           (retried (Some "secret") (AddLabelToTask 5 (JObj [("label_id", JNum 3)])))
           [])
  = [EvRequest
       {| req_path := "/tasks/5/labels"; req_method := "PUT";
          req_body := Some (JObj [("label_id", JNum 3)]);
          req_options := None |};
     EvRequest
       {| req_path := "/tasks/5/labels"; req_method := "PUT";
          req_body := Some (JObj [("label_id", JNum 3)]);
          req_options :=
            Some {| params := None;
                    headers := Some [("X-API-Token", "secret")];
                    responseType := None |} |};
     EvRequest
       {| req_path := "/tasks/5/labels"; req_method := "PUT";
          req_body := Some (JObj [("label_id", JNum 3)]);
          req_options :=
            Some {| params := None;
                    headers := Some [("authorization", "Bearer secret")];
                    responseType := None |} |}].
Proof.
  destruct (attempts_share_the_request_and_swap_headers
              (refusing 401 "Unauthorized") "secret"
              (AddLabelToTask 5 (JObj [("label_id", JNum 3)])) [])
    as [[H _] | [[H _] | [H _]]].
  - discriminate H.
  - discriminate H.
  - exact H.
Defined.

(** C9.  For every retried operation of a client built without a token,
    the cascade issues its attempts as it does with one: after a 401 or 403
    of the first attempt the second is sent with the header X-API-Token set
    to the empty string, and after a 401 or 403 of the second the third is
    sent with the header authorization set to the Bearer prefix followed by
    the text the absent token interpolates to.  The cascade resolves with
    the response of whichever of them succeeds. *)
Theorem cascade_without_a_token
    (env : Env) (op : RetriedOp) (tr : Trace) :
  let first := mkCall (op_path op) (op_method op) (op_body op) None in
  let second :=
    mkCall (op_path op) (op_method op) (op_body op)
           (with_headers [("X-API-Token", "")]) in
  let third :=
    mkCall (op_path op) (op_method op) (op_body op)
           (with_headers [("authorization", "Bearer undefined")]) in
  let outcome := run env (retried None op) tr in
  auth_failure (on_request env tr first) ->
  (exists rest,
      snd outcome = (tr ++ [EvRequest first; EvRequest second] ++ rest)%list)
  /\ (forall value,
         on_request env (tr ++ [EvRequest first])%list second = inl value ->
         outcome = (inl value, (tr ++ [EvRequest first; EvRequest second])%list))
  /\ (auth_failure (on_request env (tr ++ [EvRequest first])%list second) ->
      snd outcome
      = (tr ++ [EvRequest first; EvRequest second; EvRequest third])%list
      /\ forall value,
          on_request env (tr ++ [EvRequest first; EvRequest second])%list third
          = inl value ->
          fst outcome = inl value).
Proof.
  cbv zeta. intros H1. rewrite run_retried.
  apply auth_failure_inv in H1 as (e1 & E1 & R1).
  unfold cascade, attempt1, attempt2, attempt3.
  cbn [token_or_empty token_interpolated].
  change ("Bearer " ++ "undefined") with "Bearer undefined".
  rewrite E1, R1. clear E1 R1. repeat split.
  - destruct (on_request env _ _) as [v2 | e2].
    { exists []. reflexivity. }
    destruct (is_401_or_403 e2).
    2: { exists []. reflexivity. }
    destruct (on_request env _ _); eexists [_]; reflexivity.
  - intros value ->. reflexivity.
  - apply auth_failure_inv in H as (e2 & -> & ->).
    destruct (on_request env _ _); reflexivity.
  - apply auth_failure_inv in H as (e2 & -> & ->).
    intros value ->. reflexivity.
Qed.

Lemma cascade_without_a_token_witness :
  run (scripted [inr (api_error "/tasks/5/assignees/9" "DELETE" 403 "Forbidden");
                 inr (api_error "/tasks/5/assignees/9" "DELETE" 401 "Unauthorized");
                 inl (JObj [("message", JStr "Successfully deleted.")])])
      (retried None (RemoveUserFromTask 5 9)) []
  = (inl (JObj [("message", JStr "Successfully deleted.")]),
     [EvRequest (mkCall "/tasks/5/assignees/9" "DELETE" None None);
      EvRequest (mkCall "/tasks/5/assignees/9" "DELETE" None
                        (Some (mkOptions None (Some [("X-API-Token", "")]) None)));
      EvRequest (mkCall "/tasks/5/assignees/9" "DELETE" None
                        (Some (mkOptions None
                                 (Some [("authorization", "Bearer undefined")])
                                 None)))]).
Proof.
  pose proof (cascade_without_a_token
                (scripted [inr (api_error "/tasks/5/assignees/9" "DELETE" 403 "Forbidden");
                           inr (api_error "/tasks/5/assignees/9" "DELETE" 401
                                          "Unauthorized");
                           inl (JObj [("message", JStr "Successfully deleted.")])])
                (RemoveUserFromTask 5 9) []) as H.
  cbv zeta in H.
  destruct H as (_ & _ & H3).
  - eexists _, _. split; [reflexivity | right; reflexivity].
  - destruct H3 as (Htrace & Hvalue).
    + eexists _, _. split; [reflexivity | left; reflexivity].
    + specialize (Hvalue _ eq_refl).
      rewrite (surjective_pairing (run _ _ _)), Htrace, Hvalue. reflexivity.
Defined.

(** C5.  [assignUserToTask(5, 9)] against a request primitive that keeps
    its contract and fails every attempt with status 403: the cascade
    issues PUT /tasks/5/assignees with the body [{user_id: 9}] three times,
    first without options, then with the X-API-Token header as its only
    option (the raw token, or the empty string without one), then with the
    lowercase authorization header as its only option (the Bearer prefix
    and the token), and it rejects with an [AssigneeAuthenticationError]
    whose message contains "Assignee operation failed due to authentication
    issue" and whose status code is 403. *)
Theorem assign_5_9_refused_three_times
    (env : Env) (token : Token) (tr : Trace) :
  request_contract env ->
  (forall tr' c, exists error,
      on_request env tr' c = inr error /\ has_status error 403) ->
  exists raised,
    run env (assignUserToTask token 5 9) tr
    = (inr (Vikunja AssigneeAuthenticationError raised),
       (tr ++ [EvRequest
                 {| req_path := "/tasks/5/assignees"; req_method := "PUT";
                    req_body := Some (JObj [("user_id", JNum 9)]);
                    req_options := None |};
               EvRequest
                 {| req_path := "/tasks/5/assignees"; req_method := "PUT";
                    req_body := Some (JObj [("user_id", JNum 9)]);
                    req_options :=
                      Some {| params := None;
                              headers :=
                                Some [("X-API-Token",
                                       match token with
                                       | Some t => t
                                       | None => ""
                                       end)];
                              responseType := None |} |};
               EvRequest
                 {| req_path := "/tasks/5/assignees"; req_method := "PUT";
                    req_body := Some (JObj [("user_id", JNum 9)]);
                    req_options :=
                      Some {| params := None;
                              headers :=
                                Some [("authorization",
                                       ("Bearer "
                                        ++ match token with
                                           | Some t => t
                                           | None => "undefined"
                                           end)%string)];
                              responseType := None |} |}])%list)
    /\ contains (message raised)
                "Assignee operation failed due to authentication issue"
    /\ statusCode raised = 403.
Proof.
  intros Hc Hall.
  assert (Hfail : forall tr' c, exists cls e,
             on_request env tr' c = inr (Vikunja cls e) /\ statusCode e = 403).
  { intros tr' c. destruct (Hall tr' c) as (error & Ho & cls & e & -> & Hs).
    now exists cls, e. }
  assert (Hauth : forall tr' c, auth_failure (on_request env tr' c)).
  { intros tr' c. destruct (Hfail tr' c) as (cls & e & Ho & Hs).
    exists cls, e. split; [exact Ho | now right]. }
  set (op := AssignUserToTask 5 9).
  destruct (Hfail (tr ++ [EvRequest (attempt1 op); EvRequest (attempt2 token op)])%list
                  (attempt3 token op)) as (cls & e & H3 & Hs).
  pose proof (exhausted_cascade_run env token op tr cls e Hc
                (Hauth _ _) (Hauth _ _) H3 (or_introl (or_intror Hs))) as Hrun.
  assert (Ht : token_or_empty token
               = match token with Some t => t | None => "" end).
  { destruct token as [t |]; [apply token_or_empty_some | reflexivity]. }
  unfold attempt1, attempt2, attempt3, with_headers in Hrun.
  rewrite Ht in Hrun.
  eexists. split; [exact Hrun |]. split.
  - exists "", (". This may occur even with valid tokens. Original error: "
                ++ message e).
    reflexivity.
  - exact Hs.
Qed.

Lemma assign_5_9_refused_three_times_witness :
  exists raised,
    run (refusing 403 "Forbidden") (assignUserToTask (Some "secret") 5 9) []
    = (inr (Vikunja AssigneeAuthenticationError raised),
       [EvRequest
          {| req_path := "/tasks/5/assignees"; req_method := "PUT";
             req_body := Some (JObj [("user_id", JNum 9)]);
             req_options := None |};
        EvRequest
          {| req_path := "/tasks/5/assignees"; req_method := "PUT";
             req_body := Some (JObj [("user_id", JNum 9)]);
             req_options :=
               Some {| params := None;
                       headers := Some [("X-API-Token", "secret")];
                       responseType := None |} |};
        EvRequest
          {| req_path := "/tasks/5/assignees"; req_method := "PUT";
             req_body := Some (JObj [("user_id", JNum 9)]);
             req_options :=
               Some {| params := None;
                       headers := Some [("authorization", "Bearer secret")];
                       responseType := None |} |}])
    /\ contains (message raised)
                "Assignee operation failed due to authentication issue"
    /\ statusCode raised = 403.
Proof.
  refine (assign_5_9_refused_three_times
            (refusing 403 "Forbidden") (Some "secret") []
            (refusing_contract _ _) _).
  intros tr' c. eexists. split; [reflexivity |].
  eexists _, _. split; reflexivity.
Defined.

(** ** The claims on the attachment upload *)

Lemma string_or_nonempty (s dflt : string) : s <> "" -> string_or s dflt = s.
Proof. destruct s; [congruence | reflexivity]. Qed.

(** The upload issues one [fetch], whatever it is answered. *)
Lemma upload_issues_one_fetch
    (env : Env) (baseUrl : string) (token : Token) (taskId : Z)
    (formData : FormData) (tr : Trace) :
  snd (run env (uploadTaskAttachment baseUrl token taskId formData) tr)
  = (tr ++ [EvFetch
              (mkFetch (baseUrl ++ "/tasks/" ++ number_to_string taskId
                        ++ "/attachments")%string
                       "PUT"
                       (match token with
                        | Some t =>
                            if string_is_empty t then []
                            else [("Authorization", ("Bearer " ++ t)%string)]
                        | None => []
                        end)
                       formData)])%list.
Proof.
  unfold uploadTaskAttachment, fetch, buildUrl.
  cbn [query_pairs bind try_catch run].
  replace (if token_truthy token then _ else _)
    with (match token with
          | Some t =>
              if string_is_empty t then []
              else [("Authorization", "Bearer " ++ t)]
          | None => []
          end : Headers)
    by (destruct token as [[| c t] |]; reflexivity).
  destruct (on_fetch env tr _) as [r | msg]; cbn [bind try_catch run];
    [| reflexivity].
  destruct (ok r); cbn [negb].
  - unfold response_json. destruct (json r); reflexivity.
  - destruct ((status r =? 401) || (status r =? 403)); reflexivity.
Qed.

(** C6.  [uploadTaskAttachment] issues one [fetch]: a PUT of the form data
    as it was given, whose only header is Authorization with the Bearer
    token when the client has a (non-empty) token, and which has no header
    at all otherwise, so never a content type.  A response outside 200-299
    makes it reject with a [VikunjaAuthenticationError] when the status is
    401 or 403, and with a plain [VikunjaError] for any other status; the
    error carries the status of the response. *)
Theorem upload_sends_the_form_and_classifies_failures
    (env : Env) (baseUrl : string) (token : Token) (taskId : Z)
    (formData : FormData) (tr : Trace) :
  let hdrs :=
    match token with
    | Some t => if string_is_empty t then [] else [("Authorization", "Bearer " ++ t)]
    | None => []
    end in
  let call :=
    mkFetch (baseUrl ++ "/tasks/" ++ number_to_string taskId ++ "/attachments")
            "PUT" hdrs formData in
  let outcome := run env (uploadTaskAttachment baseUrl token taskId formData) tr in
  snd outcome = (tr ++ [EvFetch call])%list
  /\ (forall name value, In (name, value) hdrs ->
        name = "Authorization" /\ exists t, token = Some t /\ value = "Bearer " ++ t)
  /\ (forall r,
        on_fetch env tr call = FetchResolved r ->
        status r = 401 \/ status r = 403 ->
        exists e,
          fst outcome = inr (Vikunja VikunjaAuthenticationError e)
          /\ statusCode e = status r)
  /\ (forall r,
        on_fetch env tr call = FetchResolved r ->
        ok r = false ->
        status r <> 401 -> status r <> 403 ->
        exists e,
          fst outcome = inr (Vikunja VikunjaError e)
          /\ statusCode e = status r).
Proof.
  cbv zeta. split; [apply upload_issues_one_fetch |].
  unfold uploadTaskAttachment, fetch, buildUrl.
  cbn [query_pairs bind try_catch run].
  replace (if token_truthy token then _ else _)
    with (match token with
          | Some t =>
              if string_is_empty t then []
              else [("Authorization", "Bearer " ++ t)]
          | None => []
          end : Headers)
    by (destruct token as [[| c t] |]; reflexivity).
  split; [| split].
  - intros name value Hin.
    destruct token as [[| c t] |]; cbn in Hin; try contradiction.
    destruct Hin as [Hin | []]. injection Hin as <- <-.
    split; [reflexivity | now eexists].
  - intros r Hf Hs. fetch_answer Hf. cbn [bind try_catch run].
    assert (Hok : ok r = false).
    { unfold ok. destruct Hs as [-> | ->]; reflexivity. }
    assert (Hb : (status r =? 401) || (status r =? 403) = true).
    { rewrite orb_true_iff, !Z.eqb_eq. exact Hs. }
    rewrite Hok, Hb. cbn. eexists. split; reflexivity.
  - intros r Hf Hok H401 H403. fetch_answer Hf. cbn [bind try_catch run].
    rewrite Hok. cbn [negb].
    assert (Hb : (status r =? 401) || (status r =? 403) = false).
    { rewrite orb_false_iff, !Z.eqb_neq. now split. }
    rewrite Hb. cbn. eexists. split; reflexivity.
Qed.

Lemma upload_sends_the_form_and_classifies_failures_witness :
  (exists e,
      fst (run (fetching (FetchResolved (mkResponse 403
                            (inl (JObj [("message", JStr "Forbidden")])))))
               (uploadTaskAttachment "https://vikunja.example.com/api/v1"
                                     (Some "secret") 5 [("files", "a.txt")]) [])
      = inr (Vikunja VikunjaAuthenticationError e)
      /\ statusCode e = 403)
  /\
  (exists e,
      fst (run (fetching (FetchResolved (mkResponse 500 (inr "Unexpected token <"))))
               (uploadTaskAttachment "https://vikunja.example.com/api/v1"
                                     None 5 [("files", "a.txt")]) [])
      = inr (Vikunja VikunjaError e)
      /\ statusCode e = 500).
Proof.
  split.
  - refine (proj1 (proj2 (proj2
             (upload_sends_the_form_and_classifies_failures
                (fetching (FetchResolved (mkResponse 403
                             (inl (JObj [("message", JStr "Forbidden")])))))
                "https://vikunja.example.com/api/v1" (Some "secret") 5
                [("files", "a.txt")] []))) _ eq_refl _).
    right. reflexivity.
  - refine (proj2 (proj2 (proj2
             (upload_sends_the_form_and_classifies_failures
                (fetching (FetchResolved (mkResponse 500 (inr "Unexpected token <"))))
                "https://vikunja.example.com/api/v1" None 5
                [("files", "a.txt")] []))) _ eq_refl eq_refl _ _);
      cbn; lia.
Defined.

(** C10.  When [uploadTaskAttachment] receives a response in 200-299 whose
    body fails to parse, with a parse error that has a message, the failure
    is caught by the outer handler: the method rejects with a plain
    [VikunjaError] of status code 0 that carries the parse error's message,
    as it does for a network failure, although a response arrived. *)
Theorem upload_parse_failure_reported_as_network_error
    (env : Env) (baseUrl : string) (token : Token) (taskId : Z)
    (formData : FormData) (tr : Trace) (r : Response) (msg : string) :
  let hdrs :=
    match token with
    | Some t => if string_is_empty t then [] else [("Authorization", "Bearer " ++ t)]
    | None => []
    end in
  let call :=
    mkFetch (baseUrl ++ "/tasks/" ++ number_to_string taskId ++ "/attachments")
            "PUT" hdrs formData in
  on_fetch env tr call = FetchResolved r ->
  ok r = true ->
  json r = inr msg ->
  msg <> "" ->
  run env (uploadTaskAttachment baseUrl token taskId formData) tr
  = (inr (Vikunja VikunjaError
            (mkError msg
                     ("/tasks/" ++ number_to_string taskId ++ "/attachments")
                     "PUT" 0
                     (JObj [("message", JStr msg)]))),
     (tr ++ [EvFetch call])%list).
Proof.
  cbv zeta. intros Hf Hok Hj Hm.
  unfold uploadTaskAttachment, fetch, buildUrl.
  cbn [query_pairs bind try_catch run].
  replace (if token_truthy token then _ else _)
    with (match token with
          | Some t =>
              if string_is_empty t then []
              else [("Authorization", "Bearer " ++ t)]
          | None => []
          end : Headers)
    by (destruct token as [[| c t] |]; reflexivity).
  fetch_answer Hf.
  cbn [bind try_catch run]. rewrite Hok. cbn [negb].
  unfold response_json. rewrite Hj.
  cbn [try_catch run instanceof_VikunjaError error_message].
  now rewrite (string_or_nonempty msg _ Hm).
Qed.

Lemma upload_parse_failure_reported_as_network_error_witness :
  run (fetching (FetchResolved (mkResponse 200 (inr "Unexpected end of JSON input"))))
      (uploadTaskAttachment "https://vikunja.example.com/api/v1" (Some "secret") 5
                            [("files", "a.txt")]) []
  = (inr (Vikunja VikunjaError
            (mkError "Unexpected end of JSON input" "/tasks/5/attachments" "PUT" 0
                     (JObj [("message", JStr "Unexpected end of JSON input")]))),
     [EvFetch (mkFetch "https://vikunja.example.com/api/v1/tasks/5/attachments" "PUT"
                       [("Authorization", "Bearer secret")] [("files", "a.txt")])]).
Proof.
  refine (upload_parse_failure_reported_as_network_error
            (fetching (FetchResolved
                         (mkResponse 200 (inr "Unexpected end of JSON input"))))
            "https://vikunja.example.com/api/v1" (Some "secret") 5
            [("files", "a.txt")] []
            (mkResponse 200 (inr "Unexpected end of JSON input"))
            "Unexpected end of JSON input" eq_refl eq_refl eq_refl _).
  discriminate.
Defined.

(** A plain call to the request primitive: one call, and its answer. *)
Lemma run_request_call (env : Env) (path verb : string) (body : option Json)
    (options : option RequestOptions) (tr : Trace) :
  run env (request path verb body options) tr
  = (on_request env tr (mkCall path verb body options),
     (tr ++ [EvRequest (mkCall path verb body options)])%list).
Proof.
  unfold request. cbn [run]. destruct (on_request env tr _); reflexivity.
Qed.

(** ** The claims on the methods that do not retry *)

(** The query strings the service's tests expect. *)
Example buildUrl_search_term :
  buildUrl "https://vikunja.example.com/api/v1" "/tasks"
           (Some [("page", PNum 1); ("per_page", PNum 10); ("s", PStr "search term");
                  ("sort_by", PStr "title"); ("order_by", PStr "asc");
                  ("filter", PStr "done equals false")])
  = "https://vikunja.example.com/api/v1/tasks?page=1&per_page=10&s=search+term&sort_by=title&order_by=asc&filter=done+equals+false".
Proof. reflexivity. Qed.

Example buildUrl_include_nulls :
  buildUrl "https://vikunja.example.com/api/v1" "/tasks"
           (Some [("filter", PStr "due_date equals "); ("filter_include_nulls", PBool true)])
  = "https://vikunja.example.com/api/v1/tasks?filter=due_date+equals+&filter_include_nulls=true".
Proof. reflexivity. Qed.

Example buildUrl_no_params :
  buildUrl "https://vikunja.example.com/api/v1" "/tasks" None
  = "https://vikunja.example.com/api/v1/tasks".
Proof. reflexivity. Qed.

(** C7.  [getAllTasks] with page 1, per_page 10, s "x", sort_by "title",
    order_by "asc" and filter "done equals false" issues exactly one call
    and settles as that call does.  The call is a GET of /tasks without a
    body, whose options hold those parameters, unchanged and in their
    order, and nothing else; the URL the request primitive builds for this
    call is
    /tasks?page=1&per_page=10&s=x&sort_by=title&order_by=asc&filter=done+equals+false
    after the base URL. *)
Theorem getAllTasks_issues_one_get_with_the_query
    (env : Env) (baseUrl : string) (tr : Trace) :
  exists c,
    run env (getAllTasks
               (Some [("page", PNum 1); ("per_page", PNum 10); ("s", PStr "x");
                      ("sort_by", PStr "title"); ("order_by", PStr "asc");
                      ("filter", PStr "done equals false")])) tr
    = (on_request env tr c, (tr ++ [EvRequest c])%list)
    /\ req_path c = "/tasks"
    /\ req_method c = "GET"
    /\ req_body c = None
    /\ req_options c
       = Some {| params :=
                   Some [("page", PNum 1); ("per_page", PNum 10); ("s", PStr "x");
                         ("sort_by", PStr "title"); ("order_by", PStr "asc");
                         ("filter", PStr "done equals false")];
                 headers := None;
                 responseType := None |}
    /\ request_url baseUrl c
       = baseUrl
         ++ "/tasks?page=1&per_page=10&s=x&sort_by=title&order_by=asc&filter=done+equals+false".
Proof.
  eexists. split.
  - unfold getAllTasks. apply run_request_call.
  - repeat split; reflexivity.
Qed.

Lemma getAllTasks_issues_one_get_with_the_query_witness :
  exists c,
    run (scripted [inl (JArr [])])
        (getAllTasks
           (Some [("page", PNum 1); ("per_page", PNum 10); ("s", PStr "x");
                  ("sort_by", PStr "title"); ("order_by", PStr "asc");
                  ("filter", PStr "done equals false")])) []
    = (inl (JArr []), [EvRequest c])
    /\ req_path c = "/tasks"
    /\ req_method c = "GET"
    /\ req_body c = None
    /\ req_options c
       = Some {| params :=
                   Some [("page", PNum 1); ("per_page", PNum 10); ("s", PStr "x");
                         ("sort_by", PStr "title"); ("order_by", PStr "asc");
                         ("filter", PStr "done equals false")];
                 headers := None;
                 responseType := None |}
    /\ request_url "https://vikunja.example.com/api/v1" c
       = "https://vikunja.example.com/api/v1/tasks?page=1&per_page=10&s=x&sort_by=title&order_by=asc&filter=done+equals+false".
Proof.
  exact (getAllTasks_issues_one_get_with_the_query
           (scripted [inl (JArr [])]) "https://vikunja.example.com/api/v1" []).
Defined.

(** C8.  Every method that does not retry issues exactly one call, with
    the HTTP method the REST convention fixes for its kind (PUT for the
    creations, POST for the updates, the bulk operations and the done-state
    toggles, GET for the reads, DELETE for the removals) and to the endpoint
    the specification's table gives for it. *)
Theorem non_retried_methods_follow_the_convention
    (env : Env) (baseUrl : string) (token : Token)
    (convertParams : option Params -> option Params)
    (op : Operation) (tr : Trace) :
  exists ev,
    snd (run env (perform baseUrl token convertParams op) tr) = (tr ++ [ev])%list
    /\ addresses baseUrl ev (spec_method (spec_kind op)) (spec_path op).
Proof.
  destruct op;
    try (eexists; split;
         [ cbn [perform]; unfold getAllTasks, getProjectTasks, createTask, getTask,
             updateTask, deleteTask, markTaskDone, markTaskUndone,
             getTaskAssignees, getTaskComments, createTaskComment,
             getTaskComment, updateTaskComment, deleteTaskComment,
             createTaskRelation, deleteTaskRelation, bulkUpdateTasks,
             getTaskAttachments, getTaskAttachment, deleteTaskAttachment,
             updateTasksAcrossProjects, getTaskLabels, request;
           cbn [run]; destruct (on_request env tr _); reflexivity
         | split; reflexivity ]).
  eexists. split.
  - cbn [perform]. apply upload_issues_one_fetch.
  - split; reflexivity.
Qed.

(** ** Further properties of the cascade *)

(** X1.  For every retried operation: when the first two attempts fail
    with 401 or 403 and the third succeeds, the cascade resolves with the
    response of the third attempt, three calls issued. *)
Theorem third_attempt_success_resolves
    (env : Env) (token : Token) (op : RetriedOp) (tr : Trace) (value : Json) :
  auth_failure (on_request env tr (attempt1 op)) ->
  auth_failure
    (on_request env (tr ++ [EvRequest (attempt1 op)])%list (attempt2 token op)) ->
  on_request env
    (tr ++ [EvRequest (attempt1 op); EvRequest (attempt2 token op)])%list
    (attempt3 token op)
  = inl value ->
  run env (retried token op) tr = (inl value, (tr ++ three_attempts token op)%list).
Proof.
  intros H1 H2 H3.
  apply auth_failure_inv in H1 as (e1 & E1 & R1).
  apply auth_failure_inv in H2 as (e2 & E2 & R2).
  rewrite run_retried. unfold cascade. now rewrite E1, R1, E2, R2, H3.
Qed.

Lemma third_attempt_success_resolves_witness :
  run (scripted [inr (api_error "/tasks/5/labels/bulk" "POST" 401 "Unauthorized");
                 inr (api_error "/tasks/5/labels/bulk" "POST" 401 "Unauthorized");
                 inl (JObj [("labels", JArr [])])])
      (retried (Some "secret") (UpdateTaskLabels 5 (JObj [("labels", JArr [])]))) []
  = (inl (JObj [("labels", JArr [])]),
     three_attempts (Some "secret") (UpdateTaskLabels 5 (JObj [("labels", JArr [])]))).
Proof.
  refine (third_attempt_success_resolves
            (scripted [inr (api_error "/tasks/5/labels/bulk" "POST" 401 "Unauthorized");
                       inr (api_error "/tasks/5/labels/bulk" "POST" 401 "Unauthorized");
                       inl (JObj [("labels", JArr [])])])
            (Some "secret") (UpdateTaskLabels 5 (JObj [("labels", JArr [])])) []
            (JObj [("labels", JArr [])]) _ _ eq_refl).
  - eexists _, _. split; [reflexivity | left; reflexivity].
  - eexists _, _. split; [reflexivity | left; reflexivity].
Defined.

(** The run of a cascade that reaches the handler of its third attempt. *)
Lemma third_failure_run
    (env : Env) (token : Token) (op : RetriedOp) (tr : Trace) (finalError : Thrown) :
  auth_failure (on_request env tr (attempt1 op)) ->
  auth_failure
    (on_request env (tr ++ [EvRequest (attempt1 op)])%list (attempt2 token op)) ->
  on_request env
    (tr ++ [EvRequest (attempt1 op); EvRequest (attempt2 token op)])%list
    (attempt3 token op)
  = inr finalError ->
  run env (retried token op) tr
  = (inr (final_throw op finalError), (tr ++ three_attempts token op)%list).
Proof.
  intros H1 H2 H3.
  apply auth_failure_inv in H1 as (e1 & E1 & R1).
  apply auth_failure_inv in H2 as (e2 & E2 & R2).
  rewrite run_retried. unfold cascade. now rewrite E1, R1, E2, R2, H3.
Qed.

(** X2.  In the assignee methods and in [updateTaskLabels] the handler of
    the third attempt looks at the class of the error only.  An error of
    the base class is rethrown as it is, also when its status is 401 or
    403; an error of the authentication class is replaced by the family's
    error, whatever its status. *)
Theorem class_tested_final_handler
    (env : Env) (token : Token) (op : RetriedOp) (tr : Trace)
    (cls : ErrorClass) (e : ErrorFields) :
  tests_error_class op = true ->
  auth_failure (on_request env tr (attempt1 op)) ->
  auth_failure
    (on_request env (tr ++ [EvRequest (attempt1 op)])%list (attempt2 token op)) ->
  on_request env
    (tr ++ [EvRequest (attempt1 op); EvRequest (attempt2 token op)])%list
    (attempt3 token op)
  = inr (Vikunja cls e) ->
  (cls = VikunjaError ->
   run env (retried token op) tr
   = (inr (Vikunja VikunjaError e), (tr ++ three_attempts token op)%list))
  /\
  (subclass_of_authentication cls = true ->
   run env (retried token op) tr
   = (inr (family_wrap op e), (tr ++ three_attempts token op)%list)).
Proof.
  intros Hop H1 H2 H3.
  rewrite (third_failure_run env token op tr _ H1 H2 H3).
  unfold final_throw, family_wrap.
  split.
  - intros ->. destruct op; try discriminate Hop; reflexivity.
  - intros Hc. destruct op; try discriminate Hop; cbn; now rewrite Hc.
Qed.

Lemma class_tested_final_handler_witness :
  run (scripted [inr (api_error "/tasks/5/assignees" "PUT" 401 "Unauthorized");
                 inr (api_error "/tasks/5/assignees" "PUT" 401 "Unauthorized");
                 inr (Vikunja VikunjaError
                        (mkError "Unauthorized" "/tasks/5/assignees" "PUT" 401 JNull))])
      (retried None (AssignUserToTask 5 9)) []
  = (inr (Vikunja VikunjaError
            (mkError "Unauthorized" "/tasks/5/assignees" "PUT" 401 JNull)),
     three_attempts None (AssignUserToTask 5 9)).
Proof.
  refine (proj1 (class_tested_final_handler
            (scripted [inr (api_error "/tasks/5/assignees" "PUT" 401 "Unauthorized");
                       inr (api_error "/tasks/5/assignees" "PUT" 401 "Unauthorized");
                       inr (Vikunja VikunjaError
                              (mkError "Unauthorized" "/tasks/5/assignees" "PUT" 401
                                       JNull))])
            None (AssignUserToTask 5 9) [] VikunjaError
            (mkError "Unauthorized" "/tasks/5/assignees" "PUT" 401 JNull)
            eq_refl _ _ eq_refl) eq_refl).
  - eexists _, _. split; [reflexivity | left; reflexivity].
  - eexists _, _. split; [reflexivity | left; reflexivity].
Defined.

(** X3.  In [addLabelToTask] and [removeLabelFromTask] the handler of the
    third attempt looks at the status of the error only.  An error with
    status 401 or 403 is replaced by a [LabelAuthenticationError], also
    when it is of the base class; an error with another status is rethrown
    as it is, also when it is of the authentication class. *)
Theorem status_tested_final_handler
    (env : Env) (token : Token) (op : RetriedOp) (tr : Trace)
    (cls : ErrorClass) (e : ErrorFields) :
  tests_error_class op = false ->
  auth_failure (on_request env tr (attempt1 op)) ->
  auth_failure
    (on_request env (tr ++ [EvRequest (attempt1 op)])%list (attempt2 token op)) ->
  on_request env
    (tr ++ [EvRequest (attempt1 op); EvRequest (attempt2 token op)])%list
    (attempt3 token op)
  = inr (Vikunja cls e) ->
  (statusCode e = 401 \/ statusCode e = 403 ->
   run env (retried token op) tr
   = (inr (Vikunja LabelAuthenticationError
             (mkError (family_text LabelFamily ++ message e)
                      (endpoint e) (method e) (statusCode e) (response e))),
      (tr ++ three_attempts token op)%list))
  /\
  (statusCode e <> 401 -> statusCode e <> 403 ->
   run env (retried token op) tr
   = (inr (Vikunja cls e), (tr ++ three_attempts token op)%list)).
Proof.
  intros Hop H1 H2 H3.
  rewrite (third_failure_run env token op tr _ H1 H2 H3).
  unfold final_throw.
  split.
  - intros Hs.
    assert (Hb : (statusCode e =? 401) || (statusCode e =? 403) = true)
      by (rewrite orb_true_iff, !Z.eqb_eq; exact Hs).
    destruct op; try discriminate Hop; cbn; now rewrite Hb.
  - intros Ha Hb.
    assert (Hf : (statusCode e =? 401) || (statusCode e =? 403) = false)
      by (rewrite orb_false_iff, !Z.eqb_neq; now split).
    destruct op; try discriminate Hop; cbn; now rewrite Hf.
Qed.

Lemma status_tested_final_handler_witness :
  run (scripted [inr (api_error "/tasks/5/labels/2" "DELETE" 403 "Forbidden");
                 inr (api_error "/tasks/5/labels/2" "DELETE" 403 "Forbidden");
                 inr (Vikunja VikunjaAuthenticationError
                        (mkError "Teapot" "/tasks/5/labels/2" "DELETE" 418 JNull))])
      (retried (Some "secret") (RemoveLabelFromTask 5 2)) []
  = (inr (Vikunja VikunjaAuthenticationError
            (mkError "Teapot" "/tasks/5/labels/2" "DELETE" 418 JNull)),
     three_attempts (Some "secret") (RemoveLabelFromTask 5 2)).
Proof.
  refine (proj2 (status_tested_final_handler
            (scripted [inr (api_error "/tasks/5/labels/2" "DELETE" 403 "Forbidden");
                       inr (api_error "/tasks/5/labels/2" "DELETE" 403 "Forbidden");
                       inr (Vikunja VikunjaAuthenticationError
                              (mkError "Teapot" "/tasks/5/labels/2" "DELETE" 418
                                       JNull))])
            (Some "secret") (RemoveLabelFromTask 5 2) [] VikunjaAuthenticationError
            (mkError "Teapot" "/tasks/5/labels/2" "DELETE" 418 JNull)
            eq_refl _ _ eq_refl) _ _).
  - eexists _, _. split; [reflexivity | right; reflexivity].
  - eexists _, _. split; [reflexivity | right; reflexivity].
  - cbn. lia.
  - cbn. lia.
Defined.

(** X4.  The outcome of a cascade is never of its own making: it is the
    answer of the request primitive to the last call issued, or, when that
    call was the third and was refused, the family's error built from that
    refusal. *)
Theorem cascade_outcome_is_the_last_answer
    (env : Env) (token : Token) (op : RetriedOp) (tr : Trace) :
  exists (earlier : list RequestCall) (last : RequestCall),
    snd (run env (retried token op) tr)
    = (tr ++ map EvRequest (earlier ++ [last]))%list
    /\ (fst (run env (retried token op) tr)
        = on_request env (tr ++ map EvRequest earlier)%list last
        \/ (length earlier = 2%nat
            /\ exists cls e,
                on_request env (tr ++ map EvRequest earlier)%list last
                = inr (Vikunja cls e)
                /\ fst (run env (retried token op) tr) = inr (family_wrap op e))).
Proof.
  rewrite run_retried. unfold cascade.
  destruct (on_request env tr (attempt1 op)) as [v1 | e1] eqn:E1.
  { exists [], (attempt1 op). cbn. rewrite app_nil_r.
    split; [reflexivity | left; now rewrite E1]. }
  destruct (is_401_or_403 e1).
  2: { exists [], (attempt1 op). cbn. rewrite app_nil_r.
       split; [reflexivity | left; now rewrite E1]. }
  destruct (on_request env _ (attempt2 token op)) as [v2 | e2] eqn:E2.
  { exists [attempt1 op], (attempt2 token op). cbn.
    split; [reflexivity | left; now rewrite E2]. }
  destruct (is_401_or_403 e2).
  2: { exists [attempt1 op], (attempt2 token op). cbn.
       split; [reflexivity | left; now rewrite E2]. }
  exists [attempt1 op; attempt2 token op], (attempt3 token op). cbn [map app].
  destruct (on_request env _ (attempt3 token op)) as [v3 | e3] eqn:E3.
  { split; [reflexivity | left; reflexivity]. }
  split; [reflexivity |]. cbn [fst]. unfold final_throw.
  destruct e3 as [msg | cls e]; [left; reflexivity |].
  destruct (final_test op (Vikunja cls e)).
  - right. split; [reflexivity |]. now exists cls, e.
  - left. reflexivity.
Qed.

Lemma contract_authentication_status
    (env : Env) (tr : Trace) (c : RequestCall) (cls : ErrorClass) (e : ErrorFields) :
  request_contract env ->
  on_request env tr c = inr (Vikunja cls e) ->
  subclass_of_authentication cls = true ->
  is_401_or_403 (Vikunja cls e) = true.
Proof.
  intros Hc Ho Ha. apply (Hc _ _ _ _ Ho) in Ha.
  cbn. rewrite orb_true_iff, !Z.eqb_eq. exact Ha.
Qed.

(** X5.  Against a request primitive that keeps its contract, a cascade
    rejects with an error of the authentication class only when it is
    exhausted: the three calls were issued, each was refused with 401 or
    403, and the error is the one of the operation's family. *)
Theorem authentication_rejection_means_exhausted
    (env : Env) (token : Token) (op : RetriedOp) (tr : Trace)
    (cls : ErrorClass) (e : ErrorFields) :
  request_contract env ->
  fst (run env (retried token op) tr) = inr (Vikunja cls e) ->
  subclass_of_authentication cls = true ->
  snd (run env (retried token op) tr) = (tr ++ three_attempts token op)%list
  /\ cls = family_error (family op)
  /\ auth_failure (on_request env tr (attempt1 op))
  /\ auth_failure
       (on_request env (tr ++ [EvRequest (attempt1 op)])%list (attempt2 token op))
  /\ auth_failure
       (on_request env
          (tr ++ [EvRequest (attempt1 op); EvRequest (attempt2 token op)])%list
          (attempt3 token op)).
Proof.
  intros Hc. rewrite run_retried. unfold cascade.
  destruct (on_request env tr (attempt1 op)) as [v1 | e1] eqn:E1;
    [discriminate |].
  destruct (is_401_or_403 e1) eqn:R1.
  2: { cbn [fst]. intros Heq Ha. injection Heq as ->.
       rewrite (contract_authentication_status env _ _ _ _ Hc E1 Ha) in R1.
       discriminate R1. }
  destruct (on_request env _ (attempt2 token op)) as [v2 | e2] eqn:E2;
    [discriminate |].
  destruct (is_401_or_403 e2) eqn:R2.
  2: { cbn [fst]. intros Heq Ha. injection Heq as ->.
       rewrite (contract_authentication_status env _ _ _ _ Hc E2 Ha) in R2.
       discriminate R2. }
  destruct (on_request env _ (attempt3 token op)) as [v3 | e3] eqn:E3;
    [discriminate |].
  cbn [fst snd]. unfold final_throw.
  pose proof (final_test_status env op _ _ e3 Hc E3) as Ht.
  destruct e3 as [msg | c3 e3]; [discriminate |].
  destruct (final_test op (Vikunja c3 e3)) eqn:T3.
  - intros Heq Ha. injection Heq as <- <-.
    repeat split; try reflexivity; now apply is_401_or_403_auth_failure.
  - intros Heq Ha. injection Heq as -> ->.
    rewrite (contract_authentication_status env _ _ _ _ Hc E3 Ha) in Ht.
    discriminate Ht.
Qed.

Lemma authentication_rejection_means_exhausted_witness :
  snd (run (refusing 403 "Forbidden")
           (retried (Some "secret") (BulkAssignUsersToTask 5 (JObj [("assignees", JArr [])])))
           [])
  = three_attempts (Some "secret") (BulkAssignUsersToTask 5 (JObj [("assignees", JArr [])])).
Proof.
  exact (proj1 (authentication_rejection_means_exhausted
                  (refusing 403 "Forbidden") (Some "secret")
                  (BulkAssignUsersToTask 5 (JObj [("assignees", JArr [])])) []
                  AssigneeAuthenticationError
                  (mkError (family_text AssigneeFamily ++ "Forbidden")
                           "/tasks/5/assignees/bulk" "POST" 403
                           (JObj [("message", JStr "Forbidden")]))
                  (refusing_contract _ _) eq_refl eq_refl)).
Defined.

(** ** Further properties of the methods that do not retry *)

Lemma run_request (env : Env) (path verb : string) (body : option Json)
    (options : option RequestOptions) (tr : Trace) :
  run env (request path verb body options) tr
  = (on_request env tr (mkCall path verb body options),
     (tr ++ [EvRequest (mkCall path verb body options)])%list).
Proof.
  unfold request. cbn [run]. destruct (on_request env tr _); reflexivity.
Qed.

Ltac unfold_method :=
  cbn [perform];
  unfold getAllTasks, getProjectTasks, createTask, getTask, updateTask,
    deleteTask, markTaskDone, markTaskUndone, getTaskAssignees,
    getTaskComments, createTaskComment, getTaskComment, updateTaskComment,
    deleteTaskComment, createTaskRelation, deleteTaskRelation,
    bulkUpdateTasks, getTaskAttachments, getTaskAttachment,
    deleteTaskAttachment, updateTasksAcrossProjects, getTaskLabels;
  rewrite run_request.

(** X6.  Every method that goes through the request primitive without a
    cascade relays it: one call, and the method settles exactly as the
    primitive answered, resolving with its value or rejecting with its
    error unchanged. *)
Theorem plain_methods_relay_the_primitive
    (env : Env) (baseUrl : string) (token : Token)
    (convertParams : option Params -> option Params)
    (op : Operation) (tr : Trace) :
  uses_request op = true ->
  exists c,
    run env (perform baseUrl token convertParams op) tr
    = (on_request env tr c, (tr ++ [EvRequest c])%list).
Proof.
  intros Hop.
  destruct op; try discriminate Hop; unfold_method; eexists; reflexivity.
Qed.

Lemma plain_methods_relay_the_primitive_witness :
  exists c,
    run (refusing 500 "Internal Server Error")
        (perform "https://vikunja.example.com/api/v1" (Some "secret") (fun p => p)
                 (DeleteTask 7)) []
    = (on_request (refusing 500 "Internal Server Error") [] c, [EvRequest c]).
Proof.
  exact (plain_methods_relay_the_primitive
           (refusing 500 "Internal Server Error")
           "https://vikunja.example.com/api/v1" (Some "secret") (fun p => p)
           (DeleteTask 7) [] eq_refl).
Defined.

(** X7.  A method that goes through the request primitive with GET or
    DELETE never sends a body. *)
Theorem reads_and_removals_send_no_body
    (env : Env) (baseUrl : string) (token : Token)
    (convertParams : option Params -> option Params)
    (op : Operation) (tr : Trace) :
  uses_request op = true ->
  exists c,
    snd (run env (perform baseUrl token convertParams op) tr)
    = (tr ++ [EvRequest c])%list
    /\ (req_method c = "GET" \/ req_method c = "DELETE" -> req_body c = None).
Proof.
  intros Hop.
  destruct op; try discriminate Hop; unfold_method; eexists;
    (split; [reflexivity |]); cbn;
    intros [H | H]; solve [reflexivity | discriminate H].
Qed.

Lemma reads_and_removals_send_no_body_witness :
  exists c,
    snd (run (scripted []) (perform "https://vikunja.example.com/api/v1" None
                              (fun p => p) (DeleteTaskRelation 5 "subtask" 6)) [])
    = [EvRequest c]
    /\ (req_method c = "GET" \/ req_method c = "DELETE" -> req_body c = None).
Proof.
  exact (reads_and_removals_send_no_body
           (scripted []) "https://vikunja.example.com/api/v1" None (fun p => p)
           (DeleteTaskRelation 5 "subtask" 6) [] eq_refl).
Defined.

(** X8.  A method that goes through the request primitive without a
    cascade never overrides a header: the options it passes, if any, carry
    query parameters or a response type only. *)
Theorem plain_methods_override_no_header
    (env : Env) (baseUrl : string) (token : Token)
    (convertParams : option Params -> option Params)
    (op : Operation) (tr : Trace) :
  uses_request op = true ->
  exists c,
    snd (run env (perform baseUrl token convertParams op) tr)
    = (tr ++ [EvRequest c])%list
    /\ forall options, req_options c = Some options -> headers options = None.
Proof.
  intros Hop.
  destruct op; try discriminate Hop; unfold_method; eexists;
    (split; [reflexivity |]); cbn;
    intros options H; solve [discriminate H | now injection H as <-].
Qed.

Lemma plain_methods_override_no_header_witness :
  exists c,
    snd (run (scripted []) (perform "https://vikunja.example.com/api/v1" None
                              (fun p => p) (GetTaskAttachment 5 1)) [])
    = [EvRequest c]
    /\ forall options, req_options c = Some options -> headers options = None.
Proof.
  exact (plain_methods_override_no_header
           (scripted []) "https://vikunja.example.com/api/v1" None (fun p => p)
           (GetTaskAttachment 5 1) [] eq_refl).
Defined.

(** ** Further properties of the attachment upload *)

(** Running the upload up to the answer of [fetch]. *)
Ltac upload_step token Hf :=
  unfold upload_call in Hf |- *;
  unfold uploadTaskAttachment, fetch, buildUrl;
  cbn [query_pairs bind try_catch run];
  replace (if token_truthy token then _ else _)
    with (match token with
          | Some t =>
              if string_is_empty t then []
              else [("Authorization", "Bearer " ++ t)]
          | None => []
          end : Headers)
    by (destruct token as [[| ? ?] |]; reflexivity);
  fetch_answer Hf; cbn [bind try_catch run].

(** X9.  When [fetch] itself fails (no response arrives),
    [uploadTaskAttachment] rejects with a plain [VikunjaError] of status
    code 0 for its endpoint and method PUT.  The message, also recorded as
    the response body, is the failure's message, or "Network error" when
    that message is empty. *)
Theorem upload_network_failure
    (env : Env) (baseUrl : string) (token : Token) (taskId : Z)
    (formData : FormData) (tr : Trace) (msg : string) :
  on_fetch env tr (upload_call baseUrl token taskId formData) = FetchRejected msg ->
  run env (uploadTaskAttachment baseUrl token taskId formData) tr
  = (inr (Vikunja VikunjaError
            (mkError (if string_is_empty msg then "Network error" else msg)
                     (upload_endpoint taskId) "PUT" 0
                     (JObj [("message",
                             JStr (if string_is_empty msg then "Network error"
                                   else msg))]))),
     (tr ++ [EvFetch (upload_call baseUrl token taskId formData)])%list).
Proof.
  intros Hf. upload_step token Hf. reflexivity.
Qed.

Lemma upload_network_failure_witness :
  run (fetching (FetchRejected ""))
      (uploadTaskAttachment "https://vikunja.example.com/api/v1" (Some "secret") 5
                            [("files", "a.txt")]) []
  = (inr (Vikunja VikunjaError
            (mkError "Network error" "/tasks/5/attachments" "PUT" 0
                     (JObj [("message", JStr "Network error")]))),
     [EvFetch (mkFetch "https://vikunja.example.com/api/v1/tasks/5/attachments" "PUT"
                       [("Authorization", "Bearer secret")] [("files", "a.txt")])]).
Proof.
  exact (upload_network_failure
           (fetching (FetchRejected "")) "https://vikunja.example.com/api/v1"
           (Some "secret") 5 [("files", "a.txt")] [] "" eq_refl).
Defined.

(** X10.  When a response in 200-299 has a body whose parse fails with an
    error of empty message, [uploadTaskAttachment] rejects with a plain
    [VikunjaError] of status code 0 whose message is "Network error". *)
Theorem upload_parse_failure_without_message
    (env : Env) (baseUrl : string) (token : Token) (taskId : Z)
    (formData : FormData) (tr : Trace) (r : Response) :
  on_fetch env tr (upload_call baseUrl token taskId formData) = FetchResolved r ->
  ok r = true ->
  json r = inr "" ->
  run env (uploadTaskAttachment baseUrl token taskId formData) tr
  = (inr (Vikunja VikunjaError
            (mkError "Network error" (upload_endpoint taskId) "PUT" 0
                     (JObj [("message", JStr "Network error")]))),
     (tr ++ [EvFetch (upload_call baseUrl token taskId formData)])%list).
Proof.
  intros Hf Hok Hj. upload_step token Hf.
  rewrite Hok. cbn [negb]. unfold response_json. rewrite Hj. reflexivity.
Qed.

Lemma upload_parse_failure_without_message_witness :
  fst (run (fetching (FetchResolved (mkResponse 204 (inr ""))))
           (uploadTaskAttachment "https://vikunja.example.com/api/v1" None 5
                                 [("files", "a.txt")]) [])
  = inr (Vikunja VikunjaError
           (mkError "Network error" "/tasks/5/attachments" "PUT" 0
                    (JObj [("message", JStr "Network error")]))).
Proof.
  exact (f_equal fst
           (upload_parse_failure_without_message
              (fetching (FetchResolved (mkResponse 204 (inr ""))))
              "https://vikunja.example.com/api/v1" None 5 [("files", "a.txt")] []
              (mkResponse 204 (inr "")) eq_refl eq_refl eq_refl)).
Defined.

(** X11.  When a response in 200-299 has a body that parses,
    [uploadTaskAttachment] resolves with the parsed body, one [fetch]
    issued. *)
Theorem upload_success
    (env : Env) (baseUrl : string) (token : Token) (taskId : Z)
    (formData : FormData) (tr : Trace) (r : Response) (value : Json) :
  on_fetch env tr (upload_call baseUrl token taskId formData) = FetchResolved r ->
  ok r = true ->
  json r = inl value ->
  run env (uploadTaskAttachment baseUrl token taskId formData) tr
  = (inl value,
     (tr ++ [EvFetch (upload_call baseUrl token taskId formData)])%list).
Proof.
  intros Hf Hok Hj. upload_step token Hf.
  rewrite Hok. cbn [negb]. unfold response_json. rewrite Hj. reflexivity.
Qed.

Lemma upload_success_witness :
  fst (run (fetching (FetchResolved
                        (mkResponse 200 (inl (JObj [("message", JStr "Successfully created.")])))))
           (uploadTaskAttachment "https://vikunja.example.com/api/v1" (Some "secret") 5
                                 [("files", "a.txt")]) [])
  = inl (JObj [("message", JStr "Successfully created.")]).
Proof.
  exact (f_equal fst
           (upload_success
              (fetching (FetchResolved
                           (mkResponse 200
                              (inl (JObj [("message", JStr "Successfully created.")])))))
              "https://vikunja.example.com/api/v1" (Some "secret") 5
              [("files", "a.txt")] []
              (mkResponse 200 (inl (JObj [("message", JStr "Successfully created.")])))
              (JObj [("message", JStr "Successfully created.")])
              eq_refl eq_refl eq_refl)).
Defined.

(** X12.  When a response outside 200-299 has a body that does not parse,
    [uploadTaskAttachment] rejects with an error of the class its status
    fixes, whose message is "API request failed with status" followed by
    the status, whose status code is that of the response, and whose
    response body is an object holding that message alone. *)
Theorem upload_failure_with_unparsable_body
    (env : Env) (baseUrl : string) (token : Token) (taskId : Z)
    (formData : FormData) (tr : Trace) (r : Response) (msg : string) :
  on_fetch env tr (upload_call baseUrl token taskId formData) = FetchResolved r ->
  ok r = false ->
  json r = inr msg ->
  run env (uploadTaskAttachment baseUrl token taskId formData) tr
  = (inr (Vikunja (upload_error_class (status r))
            (mkError (upload_default_message (status r))
                     (upload_endpoint taskId) "PUT" (status r)
                     (JObj [("message", JStr (upload_default_message (status r)))]))),
     (tr ++ [EvFetch (upload_call baseUrl token taskId formData)])%list).
Proof.
  intros Hf Hok Hj. upload_step token Hf.
  rewrite Hok, Hj. cbn [negb]. unfold upload_error_class, upload_default_message.
  destruct ((status r =? 401) || (status r =? 403)); reflexivity.
Qed.

Lemma upload_failure_with_unparsable_body_witness :
  fst (run (fetching (FetchResolved (mkResponse 502 (inr "Unexpected token <"))))
           (uploadTaskAttachment "https://vikunja.example.com/api/v1" (Some "secret") 5
                                 [("files", "a.txt")]) [])
  = inr (Vikunja VikunjaError
           (mkError "API request failed with status 502" "/tasks/5/attachments" "PUT"
                    502
                    (JObj [("message", JStr "API request failed with status 502")]))).
Proof.
  exact (f_equal fst
           (upload_failure_with_unparsable_body
              (fetching (FetchResolved (mkResponse 502 (inr "Unexpected token <"))))
              "https://vikunja.example.com/api/v1" (Some "secret") 5
              [("files", "a.txt")] []
              (mkResponse 502 (inr "Unexpected token <")) "Unexpected token <"
              eq_refl eq_refl eq_refl)).
Defined.

(** X13.  When a response outside 200-299 has a body that parses and
    whose message is a non-empty string, the error [uploadTaskAttachment]
    rejects with has that message, the status of the response and, as its
    response body, the own properties of the parsed body. *)
Theorem upload_failure_takes_the_message_of_the_body
    (env : Env) (baseUrl : string) (token : Token) (taskId : Z)
    (formData : FormData) (tr : Trace) (r : Response) (body : Json) (text : string) :
  on_fetch env tr (upload_call baseUrl token taskId formData) = FetchResolved r ->
  ok r = false ->
  json r = inl body ->
  js_get (spread body) "message" = Some (JStr text) ->
  text <> "" ->
  run env (uploadTaskAttachment baseUrl token taskId formData) tr
  = (inr (Vikunja (upload_error_class (status r))
            (mkError text (upload_endpoint taskId) "PUT" (status r)
                     (JObj (spread body)))),
     (tr ++ [EvFetch (upload_call baseUrl token taskId formData)])%list).
Proof.
  intros Hf Hok Hj Hm Ht. upload_step token Hf.
  rewrite Hok, Hj. cbn [negb]. unfold message_or, upload_error_class. rewrite Hm.
  destruct text as [| c text]; [congruence |]. cbn [truthy string_is_empty negb js_to_string].
  destruct ((status r =? 401) || (status r =? 403)); reflexivity.
Qed.

Lemma upload_failure_takes_the_message_of_the_body_witness :
  fst (run (fetching (FetchResolved
                        (mkResponse 403 (inl (JObj [("code", JNum 3004);
                                                    ("message", JStr "Forbidden")])))))
           (uploadTaskAttachment "https://vikunja.example.com/api/v1" (Some "secret") 5
                                 [("files", "a.txt")]) [])
  = inr (Vikunja VikunjaAuthenticationError
           (mkError "Forbidden" "/tasks/5/attachments" "PUT" 403
                    (JObj [("code", JNum 3004); ("message", JStr "Forbidden")]))).
Proof.
  refine (f_equal fst
            (upload_failure_takes_the_message_of_the_body
               (fetching (FetchResolved
                            (mkResponse 403
                               (inl (JObj [("code", JNum 3004);
                                           ("message", JStr "Forbidden")])))))
               "https://vikunja.example.com/api/v1" (Some "secret") 5
               [("files", "a.txt")] []
               (mkResponse 403 (inl (JObj [("code", JNum 3004);
                                           ("message", JStr "Forbidden")])))
               (JObj [("code", JNum 3004); ("message", JStr "Forbidden")])
               "Forbidden" eq_refl eq_refl eq_refl eq_refl _)).
  discriminate.
Defined.

(** X14.  When a response outside 200-299 has a body that parses but has
    no message, or a message that is falsy (empty, null, zero, false), the
    error [uploadTaskAttachment] rejects with has the message "API request
    failed with status" followed by the status, and the own properties of
    the parsed body as its response body. *)
Theorem upload_failure_without_message_in_the_body
    (env : Env) (baseUrl : string) (token : Token) (taskId : Z)
    (formData : FormData) (tr : Trace) (r : Response) (body : Json) :
  on_fetch env tr (upload_call baseUrl token taskId formData) = FetchResolved r ->
  ok r = false ->
  json r = inl body ->
  (js_get (spread body) "message" = None
   \/ exists v, js_get (spread body) "message" = Some v /\ truthy v = false) ->
  run env (uploadTaskAttachment baseUrl token taskId formData) tr
  = (inr (Vikunja (upload_error_class (status r))
            (mkError (upload_default_message (status r))
                     (upload_endpoint taskId) "PUT" (status r)
                     (JObj (spread body)))),
     (tr ++ [EvFetch (upload_call baseUrl token taskId formData)])%list).
Proof.
  intros Hf Hok Hj Hm. upload_step token Hf.
  rewrite Hok, Hj. cbn [negb].
  unfold message_or, upload_error_class, upload_default_message.
  destruct Hm as [-> | (v & -> & ->)];
    destruct ((status r =? 401) || (status r =? 403)); reflexivity.
Qed.

Lemma upload_failure_without_message_in_the_body_witness :
  fst (run (fetching (FetchResolved (mkResponse 500 (inl JNull))))
           (uploadTaskAttachment "https://vikunja.example.com/api/v1" (Some "secret") 5
                                 [("files", "a.txt")]) [])
  = inr (Vikunja VikunjaError
           (mkError "API request failed with status 500" "/tasks/5/attachments" "PUT"
                    500 (JObj []))).
Proof.
  refine (f_equal fst
            (upload_failure_without_message_in_the_body
               (fetching (FetchResolved (mkResponse 500 (inl JNull))))
               "https://vikunja.example.com/api/v1" (Some "secret") 5
               [("files", "a.txt")] []
               (mkResponse 500 (inl JNull)) JNull eq_refl eq_refl eq_refl _)).
  left. reflexivity.
Defined.

(** X15.  Whatever [fetch] answers, an error [uploadTaskAttachment]
    rejects with is a [VikunjaError] or a [VikunjaAuthenticationError]
    recording the upload's endpoint and the method PUT, and it is of the
    authentication class exactly when its status code is 401 or 403: the
    upload keeps the error contract of the request primitive it bypasses. *)
Theorem upload_rejections_keep_the_contract
    (env : Env) (baseUrl : string) (token : Token) (taskId : Z)
    (formData : FormData) (tr : Trace) (error : Thrown) :
  fst (run env (uploadTaskAttachment baseUrl token taskId formData) tr) = inr error ->
  exists cls e,
    error = Vikunja cls e
    /\ (cls = VikunjaError \/ cls = VikunjaAuthenticationError)
    /\ endpoint e = upload_endpoint taskId
    /\ method e = "PUT"
    /\ (subclass_of_authentication cls = true <->
        statusCode e = 401 \/ statusCode e = 403).
Proof.
  unfold uploadTaskAttachment, fetch, buildUrl.
  cbn [query_pairs bind try_catch run].
  destruct (on_fetch env tr _) as [r | msg]; cbn [bind try_catch run].
  2: { cbn. intros H. injection H as <-. eexists _, _.
       repeat split; [now left | discriminate | intros [H | H]; discriminate H]. }
  destruct (ok r); cbn [negb].
  - unfold response_json. destruct (json r) as [value | msg]; cbn.
    + discriminate.
    + intros H. injection H as <-. eexists _, _.
      repeat split; [now left | discriminate | intros [H | H]; discriminate H].
  - destruct ((status r =? 401) || (status r =? 403)) eqn:Eb; cbn;
      intros H; injection H as <-; eexists _, _; cbn.
    + rewrite orb_true_iff, !Z.eqb_eq in Eb.
      repeat split; [now right | now intros _].
    + rewrite orb_false_iff, !Z.eqb_neq in Eb.
      repeat split; [now left | discriminate | tauto].
Qed.

Lemma upload_rejections_keep_the_contract_witness :
  exists cls e,
    Vikunja VikunjaAuthenticationError
            (mkError "API request failed with status 401" "/tasks/5/attachments" "PUT"
                     401 (JObj [("message", JStr "API request failed with status 401")]))
    = Vikunja cls e
    /\ (cls = VikunjaError \/ cls = VikunjaAuthenticationError)
    /\ endpoint e = upload_endpoint 5
    /\ method e = "PUT"
    /\ (subclass_of_authentication cls = true <->
        statusCode e = 401 \/ statusCode e = 403).
Proof.
  exact (upload_rejections_keep_the_contract
           (fetching (FetchResolved (mkResponse 401 (inr "Unexpected token <"))))
           "https://vikunja.example.com/api/v1" None 5 [("files", "a.txt")] []
           _ eq_refl).
Defined.
